(** * Appointment backend: requests, status history, content and assistant

    A shallow embedding of [main.py] and [schemas.py].  Python values are
    modelled by the type [value], dictionaries by association lists,
    exceptions by the error type [exn], and the document store together with
    the notification sink by the record [world], which every handler threads
    explicitly.  The handlers embedded are those of the requests, of the
    login, of the onboarding and content retrieval, and of the assistant. *)

From Stdlib Require Import List String Ascii Bool Arith NArith Lia.
From Stdlib Require Import Sorting.Sorted Sorting.Permutation.
Import ListNotations.
Open Scope string_scope.
Set Warnings "-register-all".

(** ** Exceptions and results *)

Inductive exn : Type :=
| HTTPException (status_code : nat) (detail : string)
| InvalidId
| TypeError
| KeyError (key : string)
| AttributeError
| IndexError.

Inductive result (A : Type) : Type :=
| Ok (a : A)
| Raise (e : exn).

Arguments Ok {A} a.
Arguments Raise {A} e.

Definition bind {A B : Type} (r : result A) (k : A -> result B) : result B :=
  match r with
  | Ok a => k a
  | Raise e => Raise e
  end.

Notation "x <- c ;; k" := (bind c (fun x => k))
  (at level 61, c at next level, right associativity).

(** ** Strings *)

(** [k in s] on Python strings.  Strings are UTF-8 byte sequences; a byte-level
    match of a well-formed needle always falls on code-point boundaries. *)
Fixpoint contains (k s : string) : bool :=
  if String.prefix k s then true
  else match s with
       | EmptyString => false
       | String _ s' => contains k s'
       end.

(** [any(k in text for k in ks)] *)
Definition any_in (ks : list string) (text : string) : bool :=
  existsb (fun k => contains k text) ks.

(** [sep.join(parts)] *)
Fixpoint join (sep : string) (parts : list string) : string :=
  match parts with
  | [] => ""
  | [p] => p
  | p :: ps => p ++ sep ++ join sep ps
  end.

(** ** Datetimes *)

Record datetime : Type := mkDatetime {
  year : N; month : N; day : N;
  hour : N; minute : N; second : N; microsecond : N
}.

Definition digit (n : N) : ascii := ascii_of_N (48 + n mod 10).

(** [n] printed on exactly [w] decimal digits, zero padded. *)
Fixpoint pad (w : nat) (n : N) : string :=
  match w with
  | O => ""
  | S w' => pad w' (n / 10)%N ++ String (digit n) ""
  end.

(** [datetime.isoformat()] of a naive datetime (the driver returns naive
    UTC datetimes):
    [YYYY-MM-DDTHH:MM:SS], followed by [.ffffff] when the microsecond part is
    not zero. *)
Definition isoformat (d : datetime) : string :=
  pad 4 (year d) ++ "-" ++ pad 2 (month d) ++ "-" ++ pad 2 (day d) ++ "T" ++
  pad 2 (hour d) ++ ":" ++ pad 2 (minute d) ++ ":" ++ pad 2 (second d) ++
  (if (microsecond d =? 0)%N then "" else "." ++ pad 6 (microsecond d)).

Definition datetime_tuple (d : datetime) : list N :=
  [year d; month d; day d; hour d; minute d; second d; microsecond d].

Fixpoint lex_ltb (a b : list N) : bool :=
  match a, b with
  | [], [] => false
  | [], _ :: _ => true
  | _ :: _, [] => false
  | x :: a', y :: b' => ((x <? y) || ((x =? y) && lex_ltb a' b'))%N
  end.

Definition datetime_ltb (a b : datetime) : bool :=
  lex_ltb (datetime_tuple a) (datetime_tuple b).

Definition datetime_eqb (a b : datetime) : bool :=
  forallb (fun p => (fst p =? snd p)%N)
          (combine (datetime_tuple a) (datetime_tuple b)).

(** ** Object identifiers *)

(** A [bson.ObjectId] is a 96-bit number; [str] renders it on 24 lower-case
    hexadecimal digits and the constructor accepts exactly the 24-character
    hexadecimal strings. *)
Definition oid : Type := N.

Definition hex_digit (c : ascii) : option N :=
  let n := N_of_ascii c in
  if ((48 <=? n) && (n <=? 57))%N then Some (n - 48)%N
  else if ((97 <=? n) && (n <=? 102))%N then Some (n - 87)%N
  else if ((65 <=? n) && (n <=? 70))%N then Some (n - 55)%N
  else None.

Fixpoint hex_value (s : string) (acc : N) : option N :=
  match s with
  | EmptyString => Some acc
  | String c s' =>
      match hex_digit c with
      | Some d => hex_value s' (16 * acc + d)%N
      | None => None
      end
  end.

Definition ObjectId (s : string) : result oid :=
  if (String.length s =? 24)%nat then
    match hex_value s 0%N with
    | Some n => Ok n
    | None => Raise InvalidId
    end
  else Raise InvalidId.

Definition hex_char (d : N) : ascii :=
  if (d <? 10)%N then ascii_of_N (48 + d) else ascii_of_N (87 + d).

Fixpoint hex_pad (w : nat) (n : N) : string :=
  match w with
  | O => ""
  | S w' => hex_pad w' (n / 16)%N ++ String (hex_char (n mod 16)%N) ""
  end.

(** [str(oid)] *)
Definition oid_str (o : oid) : string := hex_pad 24 o.

(** ** Python values *)

Inductive value : Type :=
| VNone
| VBool (b : bool)
| VStr (s : string)
| VDate (d : datetime)
| VOid (o : oid)
| VList (l : list value)
| VDict (d : list (string * value)).

Definition dict : Type := list (string * value).

(** [d.get(k)], as an option ([None] when the key is absent). *)
Fixpoint lookup (k : string) (d : dict) : option value :=
  match d with
  | [] => None
  | (k', v) :: d' => if String.eqb k k' then Some v else lookup k d'
  end.

(** [d.get(k, default)] *)
Definition get (d : dict) (k : string) (default : value) : value :=
  match lookup k d with
  | Some v => v
  | None => default
  end.

(** [d[k] = v]: an existing key keeps its position, a new one goes last. *)
Fixpoint set (k : string) (v : value) (d : dict) : dict :=
  match d with
  | [] => [(k, v)]
  | (k', v') :: d' =>
      if String.eqb k k' then (k, v) :: d' else (k', v') :: set k v d'
  end.

(** Truthiness: [bool(v)]. *)
Definition truthy (v : value) : bool :=
  match v with
  | VNone => false
  | VBool b => b
  | VStr s => negb (String.eqb s "")
  | VDate _ => true
  | VOid _ => true
  | VList l => match l with [] => false | _ => true end
  | VDict d => match d with [] => false | _ => true end
  end.

(** [a == b].  Dictionaries compare as key/value sets, lists pointwise. *)
Fixpoint value_eqb (a b : value) : bool :=
  match a, b with
  | VNone, VNone => true
  | VBool x, VBool y => Bool.eqb x y
  | VStr x, VStr y => String.eqb x y
  | VDate x, VDate y => datetime_eqb x y
  | VOid x, VOid y => N.eqb x y
  | VList l1, VList l2 =>
      (fix go (l1 l2 : list value) : bool :=
         match l1, l2 with
         | [], [] => true
         | x :: l1', y :: l2' => value_eqb x y && go l1' l2'
         | _, _ => false
         end) l1 l2
  | VDict d1, VDict d2 =>
      (List.length d1 =? List.length d2)%nat &&
      (fix go (d1 : dict) : bool :=
         match d1 with
         | [] => true
         | (k, v) :: d1' =>
             existsb (fun kv => String.eqb k (fst kv) && value_eqb v (snd kv)) d2
             && go d1'
         end) d1
  | _, _ => false
  end.

(** [a < b], which raises [TypeError] between values that are not ordered. *)
Fixpoint py_lt (a b : value) : result bool :=
  match a, b with
  | VBool x, VBool y => Ok (negb x && y)
  | VStr x, VStr y => Ok (String.ltb x y)
  | VDate x, VDate y => Ok (datetime_ltb x y)
  | VOid x, VOid y => Ok (N.ltb x y)
  | VList l1, VList l2 =>
      (fix go (l1 l2 : list value) : result bool :=
         match l1, l2 with
         | [], [] => Ok false
         | [], _ :: _ => Ok true
         | _ :: _, [] => Ok false
         | x :: l1', y :: l2' =>
             if value_eqb x y then go l1' l2' else py_lt x y
         end) l1 l2
  | _, _ => Raise TypeError
  end.

(** Iteration protocol: [for x in v]. *)
Definition is_continuation (c : ascii) : bool :=
  let n := N_of_ascii c in ((128 <=? n) && (n <? 192))%N.

(** The code points of a UTF-8 string, each as a one-character string. *)
Fixpoint chars (s : string) : list string :=
  match s with
  | EmptyString => []
  | String c s' =>
      match chars s' with
      | g :: gs =>
          if match s' with
             | String c' _ => is_continuation c'
             | EmptyString => false
             end
          then String c g :: gs
          else String c "" :: g :: gs
      | [] => [String c ""]
      end
  end.

Definition py_iter (v : value) : result (list value) :=
  match v with
  | VList l => Ok l
  | VStr s => Ok (map VStr (chars s))
  | VDict d => Ok (map (fun kv => VStr (fst kv)) d)
  | _ => Raise TypeError
  end.

(** [v[k]] with a string key. *)
Definition getitem (v : value) (k : string) : result value :=
  match v with
  | VDict d =>
      match lookup k d with
      | Some x => Ok x
      | None => Raise (KeyError k)
      end
  | _ => Raise TypeError
  end.

(** [v.get(k)] *)
Definition dot_get (v : value) (k : string) : result value :=
  match v with
  | VDict d => Ok (get d k VNone)
  | _ => Raise AttributeError
  end.

(** [v[0]] *)
Definition index0 (v : value) : result value :=
  match v with
  | VList (x :: _) => Ok x
  | VList [] => Raise IndexError
  | VStr s =>
      match chars s with
      | c :: _ => Ok (VStr c)
      | [] => Raise IndexError
      end
  | VDict _ => Raise (KeyError "0")
  | _ => Raise TypeError
  end.

(** [sep.join(vs)], which raises [TypeError] on an item that is not a string. *)
Fixpoint strings_of (vs : list value) : result (list string) :=
  match vs with
  | [] => Ok []
  | VStr s :: vs' => ss <- strings_of vs' ;; Ok (s :: ss)
  | _ :: _ => Raise TypeError
  end.

Definition join_values (sep : string) (vs : list value) : result string :=
  ss <- strings_of vs ;; Ok (join sep ss).

Definition opt_str (o : option string) : value :=
  match o with
  | Some s => VStr s
  | None => VNone
  end.

Definition opt_date (o : option datetime) : value :=
  match o with
  | Some d => VDate d
  | None => VNone
  end.

(** [list.sort(key=key, reverse=True)]: a stable sort into descending key
    order that only ever asks [<] of two keys, and propagates its error. *)
Fixpoint insert_desc (key : dict -> value) (x : dict) (l : list dict)
  : result (list dict) :=
  match l with
  | [] => Ok [x]
  | y :: l' =>
      b <- py_lt (key x) (key y) ;;
      if b then (r <- insert_desc key x l' ;; Ok (y :: r))
      else Ok (x :: l)
  end.

Fixpoint sort_desc (key : dict -> value) (l : list dict) : result (list dict) :=
  match l with
  | [] => Ok []
  | x :: l' => r <- sort_desc key l' ;; insert_desc key x r
  end.

(** ** The document store *)

(** A stored document: the driver-assigned [_id] and the other fields. *)
Record document : Type := mkDoc { _id : oid; fields : dict }.

Definition doc_lookup (k : string) (d : document) : option value :=
  if String.eqb k "_id" then Some (VOid (_id d)) else lookup k (fields d).

Definition doc_get (d : document) (k : string) (default : value) : value :=
  match doc_lookup k d with
  | Some v => v
  | None => default
  end.

(** What the notification sink (standard output) receives. *)
Inductive notification : Type :=
| NewLead (name email : value)
| Confirmation (email : value).

Record world : Type := mkWorld {
  db : list (string * list document);
  next_oid : oid;
  ticks : nat;
  stdout : list notification
}.

Definition empty_world : world := mkWorld [] 0%N 0 [].

(** [db[name]]: a collection that was never written is empty. *)
Fixpoint coll_lookup (name : string) (cs : list (string * list document))
  : list document :=
  match cs with
  | [] => []
  | (n, docs) :: cs' => if String.eqb name n then docs else coll_lookup name cs'
  end.

Fixpoint coll_update (name : string) (docs : list document)
  (cs : list (string * list document)) : list (string * list document) :=
  match cs with
  | [] => [(name, docs)]
  | (n, old) :: cs' =>
      if String.eqb name n then (n, docs) :: cs'
      else (n, old) :: coll_update name docs cs'
  end.

Definition collection (name : string) (w : world) : list document :=
  coll_lookup name (db w).

Definition set_collection (name : string) (docs : list document) (w : world)
  : world :=
  mkWorld (coll_update name docs (db w)) (next_oid w) (ticks w) (stdout w).

Definition print (n : notification) (w : world) : world :=
  mkWorld (db w) (next_oid w) (ticks w) (stdout w ++ [n]).

(** An exact-match filter: every key of the filter is bound, in the document,
    to an equal value (an absent field only equals [None]). *)
Definition matches (filt : dict) (d : document) : bool :=
  forallb (fun kq => value_eqb (doc_get d (fst kq) VNone) (snd kq)) filt.

(** [db[name].find(filt)], in insertion order. *)
Definition find (name : string) (filt : dict) (w : world) : list document :=
  filter (matches filt) (collection name w).

(** [db[name].find_one(filt)] *)
Definition find_one (name : string) (filt : dict) (w : world)
  : option document :=
  hd_error (find name filt w).

(** [db[name].find_one(sort=[("_id", -1)])]: the document of greatest id. *)
Fixpoint max_by_id (docs : list document) : option document :=
  match docs with
  | [] => None
  | d :: docs' =>
      match max_by_id docs' with
      | Some m => if (_id d <? _id m)%N then Some m else Some d
      | None => Some d
      end
  end.

Definition find_one_latest (name : string) (w : world) : option document :=
  max_by_id (collection name w).

(** [db[name].insert_one(data)]: the driver assigns the next identifier. *)
Definition insert_one (name : string) (data : dict) (w : world) : oid * world :=
  let o := next_oid w in
  (o, mkWorld (coll_update name (collection name w ++ [mkDoc o data]) (db w))
              (N.succ o) (ticks w) (stdout w)).

(** [{"$set": upd}] applied to a document. *)
Definition apply_set (upd : dict) (d : document) : document :=
  mkDoc (_id d) (fold_left (fun f kv => set (fst kv) (snd kv) f) upd (fields d)).

Fixpoint update_first (filt upd : dict) (docs : list document)
  : nat * list document :=
  match docs with
  | [] => (0, [])
  | d :: docs' =>
      if matches filt d then (1, apply_set upd d :: docs')
      else let (n, r) := update_first filt upd docs' in (n, d :: r)
  end.

(** [db[name].update_one(filt, {"$set": upd})], returning [matched_count]. *)
Definition update_one (name : string) (filt upd : dict) (w : world)
  : nat * world :=
  let (n, docs) := update_first filt upd (collection name w) in
  (n, if (n =? 0)%nat then w else set_collection name docs w).

(** Modelled from the spec: [database.create_document], of the module
    [database] that the handlers import.  Section 4.1 gives
    [create(collection, record) -> id]: the record is persisted under a
    store-assigned identifier, which is returned rendered as a string.  A
    caller that passes a model passes, here, its [model_dump]. *)
Definition create_document (name : string) (data : dict) (w : world)
  : string * world :=
  let (o, w') := insert_one name data w in (oid_str o, w').

(** Modelled from the spec: [database.get_documents], of the same module.
    Section 4.1 gives [list(collection, filter) -> sequence of records] with an
    exact-match key/value filter. *)
Definition get_documents (name : string) (filt : dict) (w : world)
  : list document :=
  find name filt w.

(** ** The runtime *)

(** What the handlers take from the Python runtime: [str.lower] and the
    successive readings of the UTC clock. *)
Class Runtime : Type := {
  lower : string -> string;
  clock : nat -> datetime
}.

(** [datetime.now(timezone.utc)] *)
Definition now `{Runtime} (w : world) : datetime * world :=
  (clock (ticks w), mkWorld (db w) (next_oid w) (S (ticks w)) (stdout w)).

(** [v.lower()] *)
Definition dot_lower `{Runtime} (v : value) : result string :=
  match v with
  | VStr s => Ok (lower s)
  | _ => Raise AttributeError
  end.

(** ** Schemas ([schemas.py] and the payload models of [main.py]) *)

Module Request.
Record t : Type := mk {
  name : string;
  email : string;
  phone : string;
  service_id : option string;
  message : option string;
  status : string;
  created_at : option datetime
}.

(** The constructor call with the defaults of the two last fields. *)
Definition new (name email phone : string) (service_id message : option string)
  : t :=
  mk name email phone service_id message "Nouveau" None.

Definition model_dump (r : t) : dict :=
  [ ("name", VStr (name r));
    ("email", VStr (email r));
    ("phone", VStr (phone r));
    ("service_id", opt_str (service_id r));
    ("message", opt_str (message r));
    ("status", VStr (status r));
    ("created_at", opt_date (created_at r)) ].
End Request.

Module StatusUpdate.
Record t : Type := mk { status : string }.
End StatusUpdate.

Module LoginPayload.
Record t : Type := mk { email : string; password : string }.
End LoginPayload.

Module OnboardingPayload.
Record t : Type := mk {
  nom : string;
  metier : string;
  localisation : string;
  services : list string;
  horaires : string
}.
End OnboardingPayload.

Module Business.
Record t : Type := mk {
  owner_name : string;
  metier : string;
  localisation : string;
  services : list string;
  horaires : string;
  intro_paragraph : option string;
  faq : option (list dict);
  service_descriptions : option (list dict);
  assistant_responses : option (list string)
}.

Definition opt_list {A : Type} (f : A -> value) (o : option (list A)) : value :=
  match o with
  | Some l => VList (map f l)
  | None => VNone
  end.

Definition model_dump (b : t) : dict :=
  [ ("owner_name", VStr (owner_name b));
    ("métier", VStr (metier b));
    ("localisation", VStr (localisation b));
    ("services", VList (map VStr (services b)));
    ("horaires", VStr (horaires b));
    ("intro_paragraph", opt_str (intro_paragraph b));
    ("faq", opt_list VDict (faq b));
    ("service_descriptions", opt_list VDict (service_descriptions b));
    ("assistant_responses", opt_list VStr (assistant_responses b)) ].
End Business.

Module ChatMessage.
Record t : Type := mk {
  message : string;
  name : option string;
  email : option string;
  phone : option string;
  service : option string
}.
End ChatMessage.

(** ** Helpers *)

(** [to_public(doc)] on a document the driver returned: [_id] leaves as the
    string [id] and every datetime becomes its ISO rendering.  (The guard
    [if not doc] only concerns an absent document, which each caller has
    already excluded.) *)
Definition iso (v : value) : value :=
  match v with
  | VDate d => VStr (isoformat d)
  | _ => v
  end.

Definition to_public (doc : document) : dict :=
  map (fun kv => (fst kv, iso (snd kv)))
      (set "id" (VStr (oid_str (_id doc))) (fields doc)).

(** ** Content generation *)

Definition generate_intro (nom metier localisation : string) : string :=
  nom ++ ", " ++ metier ++ " à " ++ localisation ++
  ". Prenez rendez-vous facilement : nous répondons vite et organisons tout pour vous. Des prestations de qualité avec un accueil soigné.".

Definition generate_service_descriptions `{Runtime} (services : list string)
  : list dict :=
  map (fun s =>
         [ ("title", VStr s);
           ("description",
            VStr ("Prestations " ++ lower s ++
                  " réalisées avec soin. Conseils personnalisés, durée adaptée, et devis transparent.")) ])
      services.

Definition generate_faq (nom metier localisation horaires : string) : list dict :=
  [ [ ("q", VStr "Quels sont vos horaires ?");
      ("a", VStr (horaires ++ ". N'hésitez pas à nous écrire pour un créneau spécifique.")) ];
    [ ("q", VStr "Où êtes-vous situé ?");
      ("a", VStr ("Nous sommes à " ++ localisation ++
                  ". L'adresse exacte sera confirmée lors de la prise de rendez-vous.")) ];
    [ ("q", VStr "Quels services proposez-vous ?");
      ("a", VStr (metier ++ " — nous proposons des formules adaptées et des prestations sur mesure.")) ];
    [ ("q", VStr "Quels sont les tarifs ?");
      ("a", VStr "Nos tarifs sont indiqués pour chaque service et confirmés par email.") ] ].

Definition generate_assistant_responses (metier : string) : list string :=
  [ "Bonjour ! Comment puis-je vous aider aujourd'hui ?";
    "Vous cherchez un " ++ metier ++ "? Je peux vous guider et réserver un créneau.";
    "Pour confirmer une demande, partagez votre nom, email et téléphone." ].

(** ** Requests (leads) *)

Definition create_request `{Runtime} (payload : Request.t) (w : world)
  : result dict * world :=
  let data := Request.model_dump payload in
  let (t, w1) := now w in
  let data := set "created_at" (VDate t) data in
  let (rid, w2) := create_document "request" data w1 in
  (* the simulated email: an exception while printing is swallowed *)
  let w3 := match lookup "name" data with
            | Some n => print (NewLead n (get data "email" VNone)) w2
            | None => w2
            end in
  (Ok [("id", VStr rid)], w3).

(** [lambda x: x.get("created_at", "")] *)
Definition created_at_key (x : dict) : value := get x "created_at" (VStr "").

Definition list_requests (status : option string) (w : world)
  : result (list dict) :=
  let filt := if truthy (opt_str status) then [("status", opt_str status)] else [] in
  let res := map to_public (get_documents "request" filt w) in
  (* sort desc by created_at *)
  sort_desc created_at_key res.

Definition get_request (req_id : string) (w : world) : result dict :=
  o <- ObjectId req_id ;;
  match find_one "request" [("_id", VOid o)] w with
  | None => Raise (HTTPException 404 "Demande introuvable")
  | Some doc => Ok (to_public doc)
  end.

Definition statuses : list string := ["Nouveau"; "Confirmé"; "Annulé"].

Definition update_status `{Runtime} (req_id : string) (payload : StatusUpdate.t)
  (w : world) : result dict * world :=
  let st := StatusUpdate.status payload in
  if negb (existsb (String.eqb st) statuses) then
    (Raise (HTTPException 400 "Statut invalide"), w)
  else
    match ObjectId req_id with
    | Raise e => (Raise e, w)
    | Ok o =>
        let (t1, w1) := now w in
        let (matched_count, w2) :=
          update_one "request" [("_id", VOid o)]
                     [("status", VStr st); ("updated_at", VDate t1)] w1 in
        if (matched_count =? 0)%nat then
          (Raise (HTTPException 404 "Demande introuvable"), w2)
        else
          (* Log history *)
          let (t2, w3) := now w2 in
          let (_, w4) :=
            insert_one "request_log"
                       [("request_id", VOid o); ("status", VStr st);
                        ("timestamp", VDate t2)] w3 in
          let w5 :=
            if String.eqb st "Confirmé" then
              match find_one "request" [("_id", VOid o)] w4 with
              | Some doc => print (Confirmation (doc_get doc "email" VNone)) w4
              | None => w4
              end
            else w4 in
          (Ok [("ok", VBool true)], w5)
    end.

Definition get_history (req_id : string) (w : world) : result (list dict) :=
  o <- ObjectId req_id ;;
  Ok (map to_public (find "request_log" [("request_id", VOid o)] w)).

(** ** Auth *)

Definition login (payload : LoginPayload.t) (w : world) : result dict :=
  match find_one "user" [("email", VStr (LoginPayload.email payload))] w with
  | None => Raise (HTTPException 401 "Identifiants invalides")
  | Some user =>
      if negb (value_eqb (doc_get user "password" VNone)
                         (VStr (LoginPayload.password payload)))
      then Raise (HTTPException 401 "Identifiants invalides")
      else Ok [ ("token", VStr "demo-token");
                ("user", VDict [ ("name", doc_get user "name" VNone);
                                 ("email", doc_get user "email" VNone) ]) ]
  end.

(** ** Onboarding and content *)

Definition onboarding `{Runtime} (payload : OnboardingPayload.t) (w : world)
  : result dict * world :=
  let nom := OnboardingPayload.nom payload in
  let metier := OnboardingPayload.metier payload in
  let localisation := OnboardingPayload.localisation payload in
  let intro := generate_intro nom metier localisation in
  let service_desc :=
    generate_service_descriptions (OnboardingPayload.services payload) in
  let faq :=
    generate_faq nom metier localisation (OnboardingPayload.horaires payload) in
  let assistant_res := generate_assistant_responses metier in
  let biz :=
    Business.mk nom metier localisation (OnboardingPayload.services payload)
                (OnboardingPayload.horaires payload)
                (Some intro) (Some faq) (Some service_desc) (Some assistant_res) in
  let (bid, w') := create_document "business" (Business.model_dump biz) w in
  (Ok [ ("id", VStr bid); ("intro", VStr intro); ("faq", VList (map VDict faq));
        ("services", VList (map VDict service_desc));
        ("assistant", VList (map VStr assistant_res)) ], w').

Definition get_content `{Runtime} (w : world) : dict :=
  match find_one_latest "business" w with
  | None =>
      [ ("intro", VStr (generate_intro "Votre Nom" "Votre métier" "Votre ville"));
        ("faq", VList (map VDict (generate_faq "" "" "" "Lun-Ven 9h-18h")));
        ("services",
         VList (map VDict (generate_service_descriptions
                             ["Consultation"; "Accompagnement"; "Séance"]))) ]
  | Some b =>
      let biz := to_public b in
      [ ("intro", get biz "intro_paragraph" VNone);
        ("faq", get biz "faq" (VList []));
        ("services", get biz "service_descriptions" (VList []));
        ("horaires", get biz "horaires" VNone);
        ("localisation", get biz "localisation" VNone);
        ("metier", get biz "métier" VNone);
        ("owner", get biz "owner_name" VNone) ]
  end.

(** ** Assistant (rule-based) *)

Definition hours_keywords : list string := ["horaire"; "heures"; "ouvert"].
Definition price_keywords : list string := ["prix"; "tarif"].
Definition place_keywords : list string := ["où"; "adresse"; "localisation"; "lieu"].

Definition price_reply : string :=
  "Nos tarifs varient selon le service. Dites-moi le service souhaité et je vous oriente.".

Definition default_greeting : string := "Je suis là pour vous aider !".

(** [next((f["a"] for f in fs if "horaire" in f["q"].lower()), None)] *)
Fixpoint next_hours `{Runtime} (fs : list value) : result value :=
  match fs with
  | [] => Ok VNone
  | f :: fs' =>
      q <- getitem f "q" ;;
      ql <- dot_lower q ;;
      if contains "horaire" ql then getitem f "a" else next_hours fs'
  end.

(** [next((f["a"] for f in fs
          if "où" in f["q"].lower() or "situ" in f["a"].lower()), None)] *)
Fixpoint next_place `{Runtime} (fs : list value) : result value :=
  match fs with
  | [] => Ok VNone
  | f :: fs' =>
      q <- getitem f "q" ;;
      ql <- dot_lower q ;;
      if contains "où" ql then getitem f "a"
      else
        a <- getitem f "a" ;;
        al <- dot_lower a ;;
        if contains "situ" al then getitem f "a" else next_place fs'
  end.

Definition faq_of (content : dict) : value := get content "faq" (VList []).

Definition hours_answer `{Runtime} (content : dict) : result value :=
  fs <- py_iter (faq_of content) ;; next_hours fs.

Definition place_answer `{Runtime} (content : dict) : result value :=
  fs <- py_iter (faq_of content) ;; next_place fs.

(** The body of [for item in content.get("faq", [])]: every branch that a
    keyword selects ends in [break]; [item] itself is never read. *)
Fixpoint faq_loop `{Runtime} (content : dict) (text : string)
  (items : list value) (reply : value) : result value :=
  match items with
  | [] => Ok reply
  | _ :: items' =>
      if any_in hours_keywords text then hours_answer content
      else if any_in price_keywords text then Ok (VStr price_reply)
      else if any_in place_keywords text then place_answer content
      else faq_loop content text items' reply
  end.

(** FAQ lookup: the value of [reply] after the loop. *)
Definition faq_lookup `{Runtime} (content : dict) (text : string) : result value :=
  items <- py_iter (faq_of content) ;;
  faq_loop content text items VNone.

Fixpoint titles_of (ss : list value) : result (list value) :=
  match ss with
  | [] => Ok []
  | s :: ss' => t <- dot_get s "title" ;; ts <- titles_of ss' ;; Ok (t :: ts)
  end.

(** The first [if not reply:] block: service suggestion. *)
Definition service_suggestion (content : dict) (text : string) (reply : value)
  : result value :=
  if negb (truthy reply) then
    ss <- py_iter (get content "services" (VList [])) ;;
    services <- titles_of ss ;;
    if contains "service" text || contains "choisir" text
       || contains "conseil" text
    then
      j <- join_values ", " services ;;
      Ok (VStr ("Voici nos services: " ++ j ++ ". Quel vous intéresse ?"))
    else Ok reply
  else Ok reply.

(** The second [if not reply:] block: the greeting. *)
Definition greeting (content : dict) (reply : value) : result value :=
  if negb (truthy reply) then
    index0 (get content "assistant" (VList [VStr default_greeting]))
  else Ok reply.

(** What follows the loop when it left [reply] at [None]. *)
Definition fallback (content : dict) (text : string) : result value :=
  r <- service_suggestion content text VNone ;; greeting content r.

Definition select_reply `{Runtime} (content : dict) (text : string)
  : result value :=
  r <- faq_lookup content text ;;
  r <- service_suggestion content text r ;;
  greeting content r.

(** Truthiness of an optional string field. *)
Definition provided (o : option string) : bool := truthy (opt_str o).

Definition assistant `{Runtime} (msg : ChatMessage.t) (w : world)
  : result dict * world :=
  let content := get_content w in
  let text := lower (ChatMessage.message msg) in
  match select_reply content text with
  | Raise e => (Raise e, w)
  | Ok reply =>
      (* Auto create request if contact provided *)
      match ChatMessage.name msg, ChatMessage.email msg, ChatMessage.phone msg with
      | Some n, Some e, Some p =>
          if provided (Some n) && provided (Some e) && provided (Some p) then
            let req := Request.new n e p None (Some (ChatMessage.message msg)) in
            let (created_id, w') :=
              create_document "request" (Request.model_dump req) w in
            (Ok [("reply", reply); ("created_request_id", VStr created_id)], w')
          else (Ok [("reply", reply); ("created_request_id", VNone)], w)
      | _, _, _ => (Ok [("reply", reply); ("created_request_id", VNone)], w)
      end
  end.

(** ** A concrete runtime *)

Definition lower_ascii (c : ascii) : ascii :=
  let n := N_of_ascii c in
  if ((65 <=? n) && (n <=? 90))%N then ascii_of_N (n + 32) else c.

(** [str.lower] on text whose capital letters are all ASCII. *)
Fixpoint ascii_lower (s : string) : string :=
  match s with
  | EmptyString => EmptyString
  | String c s' => String (lower_ascii c) (ascii_lower s')
  end.

(** A clock that starts on 2024-01-01 and advances by one second a reading. *)
Definition demo_clock (n : nat) : datetime :=
  let s := N.of_nat n in
  mkDatetime 2024 1 1 ((s / 3600) mod 24) ((s / 60) mod 60) (s mod 60) 0.

Definition demo_runtime : Runtime := Build_Runtime ascii_lower demo_clock.

(** ** Specification vocabulary *)

Definition is_hex (c : ascii) : bool :=
  match hex_digit c with Some _ => true | None => false end.

Fixpoint all_hex (s : string) : bool :=
  match s with
  | EmptyString => true
  | String c s' => is_hex c && all_hex s'
  end.

(** A well-formed identifier: 24 hexadecimal characters. *)
Definition well_formed_id (s : string) : bool :=
  (String.length s =? 24)%nat && all_hex s.

(** A store with one registered user. *)
Definition users_world : world :=
  mkWorld [("user", [mkDoc 0%N [ ("name", VStr "Ana");
                                 ("email", VStr "ana@x.com");
                                 ("password", VStr "secret") ]])]
          1%N 0 [].

(** The history entry that [update_status] writes. *)
Definition log_entry (o : oid) (st : string) (t : datetime) : dict :=
  [("request_id", VOid o); ("status", VStr st); ("timestamp", VDate t)].

(** A store holding one request, created through the API. *)
Definition tom_request : Request.t :=
  Request.new "Tom" "tom@x.com" "0600000000" None (Some "bonjour").

Definition one_request_world : world :=
  snd (@create_request demo_runtime tom_request empty_world).

(** Every identifier of a collection was issued before the next one. *)
Definition fresh_ids (n : string) (w : world) : Prop :=
  Forall (fun d => (_id d < next_oid w)%N) (collection n w).

(** The onboarding call of the round-trip property. *)
Definition claire : OnboardingPayload.t :=
  OnboardingPayload.mk "Claire" "coiffeuse" "Lyon" ["Coupe"; "Couleur"]
                       "Lun-Ven 9h-18h".

(** A content whose FAQ list is empty. *)
Definition bare_content : dict :=
  [("intro", VStr "Bienvenue"); ("faq", VList []); ("services", VList [])].

(** A content whose FAQ has no entry about opening hours or places. *)
Definition prices_only_content : dict :=
  [("faq", VList [VDict [("q", VStr "Quels sont les tarifs ?");
                         ("a", VStr "Sur devis.")]]);
   ("services", VList [VDict [("title", VStr "Coupe")]])].

(** Well-formed generated content: FAQ entries carry a question and an
    answer, service descriptions carry a title, all strings. *)
Definition qa_entry (v : value) : Prop :=
  exists d q a,
    v = VDict d /\ lookup "q" d = Some (VStr q) /\ lookup "a" d = Some (VStr a).

Definition titled (v : value) : Prop :=
  exists d t, v = VDict d /\ lookup "title" d = Some (VStr t).

Definition list_of (P : value -> Prop) (v : option value) : Prop :=
  match v with
  | None => True
  | Some (VList l) => Forall P l
  | Some _ => False
  end.

(** A business profile as [onboarding] writes them. *)
Definition business_ok (d : document) : Prop :=
  list_of qa_entry (lookup "faq" (fields d)) /\
  list_of titled (lookup "service_descriptions" (fields d)).


(** The assistant call of the lead-creation property. *)
Definition tom_message : ChatMessage.t :=
  ChatMessage.mk "bonjour" (Some "Tom") (Some "tom@x.com") (Some "0600000000")
                 None.

(** The text that orders a listed request: its sort key when it is a string. *)
Definition created_text (x : dict) : string :=
  match created_at_key x with
  | VStr s => s
  | _ => ""
  end.

(** Most recent first: the key of [b] is at most the key of [a]. *)
Definition newest_first (a b : dict) : Prop :=
  String.leb (created_text b) (created_text a) = true.

(** A stored creation timestamp that is absent, a string or a datetime. *)
Definition timestamp_ok (d : document) : Prop :=
  match lookup "created_at" (fields d) with
  | None | Some (VStr _) | Some (VDate _) => True
  | Some _ => False
  end.

(** The requests that a status filter retains. *)
Definition has_status (s : string) (d : document) : bool :=
  value_eqb (doc_get d "status" VNone) (VStr s).

(** The requests that [list_requests] is to return for a filter: an absent
    or empty filter retains everything. *)
Definition retained (status : option string) (docs : list document)
  : list document :=
  match status with
  | None => docs
  | Some s => if String.eqb s "" then docs else filter (has_status s) docs
  end.

(** The text of a stored creation timestamp once made public. *)
Definition stored_text (d : document) : string :=
  match lookup "created_at" (fields d) with
  | Some (VDate t) => isoformat t
  | Some (VStr s) => s
  | _ => ""
  end.

(** A store holding two requests, both created through the API. *)
Definition two_requests_world : world :=
  snd (@create_request demo_runtime
         (Request.new "Léa" "lea@x.com" "0611111111" None None)
         one_request_world).

(** A store holding two leads, both created by the assistant. *)
Definition two_leads_world : world :=
  snd (@assistant demo_runtime tom_message
         (snd (@assistant demo_runtime tom_message empty_world))).

(** The field ranges that the ISO rendering relies on (every Python
    datetime is within them). *)
Definition valid_datetime (t : datetime) : Prop :=
  (year t < 10000 /\ month t < 100 /\ day t < 100 /\ hour t < 100 /\
   minute t < 100 /\ second t < 100 /\ microsecond t < 1000000)%N.

(** Whether a value is a datetime. *)
Definition is_datetime (v : value) : bool :=
  match v with
  | VDate _ => true
  | _ => false
  end.

(** The update that [update_status] applies to the matched request. *)
Definition status_update (st : string) (t : datetime) : dict :=
  [("status", VStr st); ("updated_at", VDate t)].

(** The answer of the generated FAQ about opening hours. *)
Definition hours_faq_answer (horaires : string) : string :=
  horaires ++ ". N'hésitez pas à nous écrire pour un créneau spécifique.".

(** The content that [get_content] serves for an onboarding payload. *)
Definition content_of `{Runtime} (payload : OnboardingPayload.t) : dict :=
  let nom := OnboardingPayload.nom payload in
  let metier := OnboardingPayload.metier payload in
  let localisation := OnboardingPayload.localisation payload in
  let horaires := OnboardingPayload.horaires payload in
  [ ("intro", VStr (generate_intro nom metier localisation));
    ("faq", VList (map VDict (generate_faq nom metier localisation horaires)));
    ("services",
     VList (map VDict (generate_service_descriptions
                         (OnboardingPayload.services payload))));
    ("horaires", VStr horaires);
    ("localisation", VStr localisation);
    ("metier", VStr metier);
    ("owner", VStr nom) ].

(** A store whose only business profile was saved without its FAQ. *)
Definition profile_without_faq_world : world :=
  mkWorld [("business", [mkDoc 0%N [("owner_name", VStr "Ana");
                                    ("faq", VNone)]])]
          1%N 0 [].

(** A stored creation timestamp of a kind that the schema or the handlers
    produce: absent, [None], a string or a datetime. *)
Definition timestamp_known (d : document) : Prop :=
  match lookup "created_at" (fields d) with
  | None | Some VNone | Some (VStr _) | Some (VDate _) => True
  | Some _ => False
  end.

(** Most recent first, on stored documents. *)
Definition stored_newest_first (a b : document) : Prop :=
  String.leb (stored_text b) (stored_text a) = true.

(** A store holding two requests stamped with the same instant. *)
Definition same_instant_world : world :=
  mkWorld [("request",
            [mkDoc 0%N [("name", VStr "Ana"); ("status", VStr "Nouveau");
                        ("created_at", VDate (mkDatetime 2024 5 1 9 0 0 0))];
             mkDoc 1%N [("name", VStr "Bob"); ("status", VStr "Nouveau");
                        ("created_at", VDate (mkDatetime 2024 5 1 9 0 0 0))]])]
          2%N 0 [].

(** A store holding one lead, created by the assistant. *)
Definition one_lead_world : world :=
  snd (@assistant demo_runtime tom_message empty_world).

(** ** Stores built through the handlers *)

(** One call of a handler that writes to the store.  (The other handlers only
    read it.) *)
Inductive step `{Runtime} : world -> world -> Prop :=
| step_create_request (payload : Request.t) (w : world) :
    step w (snd (create_request payload w))
| step_update_status (req_id : string) (payload : StatusUpdate.t) (w : world) :
    step w (snd (update_status req_id payload w))
| step_onboarding (payload : OnboardingPayload.t) (w : world) :
    step w (snd (onboarding payload w))
| step_assistant (msg : ChatMessage.t) (w : world) :
    step w (snd (assistant msg w)).

(** The stores that calls of the handlers build from the empty store. *)
Inductive reachable `{Runtime} : world -> Prop :=
| reachable_empty : reachable empty_world
| reachable_step (w w' : world) : reachable w -> step w w' -> reachable w'.

(** The identifiers of a collection, in store order. *)
Definition ids (n : string) (w : world) : list oid :=
  map _id (collection n w).

(** A history entry as [update_status] writes them, about one of the
    requests [rs]. *)
Definition logged (rs : list oid) (d : document) : Prop :=
  exists o st t,
    fields d = log_entry o st t /\ In st statuses /\ In o rs.

(** What every handler call keeps true of the store. *)
Definition store_ok (w : world) : Prop :=
  (forall n, Forall (fun o => (o < next_oid w)%N) (ids n w)) /\
  (forall n, NoDup (ids n w)) /\
  Forall business_ok (collection "business" w) /\
  Forall timestamp_known (collection "request" w) /\
  Forall (logged (ids "request" w)) (collection "request_log" w).

(** The identifiers of [w'] are those of [w], but for at most one new
    identifier, the next one of [w], at the end of a collection. *)
Definition grows (w w' : world) : Prop :=
  (next_oid w <= next_oid w')%N /\
  forall n,
    ids n w' = ids n w \/
    (ids n w' = (ids n w ++ [next_oid w])%list
     /\ next_oid w' = N.succ (next_oid w)).

Definition same_ids (w w' : world) : Prop :=
  next_oid w' = next_oid w /\ forall n, ids n w' = ids n w.

(** * Properties *)

(** ** The store *)

Lemma coll_lookup_update_same (n : string) (docs : list document) cs :
  coll_lookup n (coll_update n docs cs) = docs.
Proof.
  induction cs as [|[m old] cs IH]; simpl.
  - now rewrite String.eqb_refl.
  - destruct (String.eqb n m) eqn:E; simpl; rewrite E; auto.
Qed.

Lemma coll_lookup_update_other (n m : string) (docs : list document) cs :
  n <> m -> coll_lookup n (coll_update m docs cs) = coll_lookup n cs.
Proof.
  intros Hnm. induction cs as [|[k old] cs IH]; simpl.
  - apply String.eqb_neq in Hnm. now rewrite Hnm.
  - destruct (String.eqb m k) eqn:E; simpl.
    + apply String.eqb_eq in E. subst k.
      apply String.eqb_neq in Hnm. now rewrite Hnm.
    + destruct (String.eqb n k); auto.
Qed.

Lemma collection_insert_same (n : string) (data : dict) (w : world) :
  collection n (snd (insert_one n data w))
  = (collection n w ++ [mkDoc (next_oid w) data])%list.
Proof. unfold insert_one, collection; simpl. apply coll_lookup_update_same. Qed.

Lemma collection_insert_other (n m : string) (data : dict) (w : world) :
  n <> m -> collection n (snd (insert_one m data w)) = collection n w.
Proof.
  intros. unfold insert_one, collection; simpl.
  now apply coll_lookup_update_other.
Qed.

Lemma collection_print (n : string) (x : notification) (w : world) :
  collection n (print x w) = collection n w.
Proof. reflexivity. Qed.

Lemma collection_now `{Runtime} (n : string) (w : world) :
  collection n (snd (now w)) = collection n w.
Proof. reflexivity. Qed.

Lemma update_first_count (filt upd : dict) (docs : list document) :
  fst (update_first filt upd docs)
  = match filter (matches filt) docs with [] => 0 | _ :: _ => 1 end.
Proof.
  induction docs as [|d docs IH]; simpl; auto.
  destruct (matches filt d); simpl; auto.
  destruct (update_first filt upd docs) as [n r]; simpl in *; auto.
Qed.

(** [matched_count] is zero exactly when [find_one] finds nothing. *)
Lemma update_one_count (n : string) (filt upd : dict) (w : world) :
  fst (update_one n filt upd w)
  = match find_one n filt w with None => 0 | Some _ => 1 end.
Proof.
  unfold update_one, find_one, find.
  pose proof (update_first_count filt upd (collection n w)) as Hc.
  destruct (update_first filt upd (collection n w)) as [k r]; simpl in *.
  rewrite Hc. now destruct (filter (matches filt) (collection n w)).
Qed.

Lemma collection_update_other (n m : string) (filt upd : dict) (w : world) :
  n <> m -> collection n (snd (update_one m filt upd w)) = collection n w.
Proof.
  intros Hnm. unfold update_one.
  destruct (update_first filt upd (collection m w)) as [k r]; simpl.
  destruct (k =? 0)%nat; auto.
  unfold set_collection, collection; simpl.
  now apply coll_lookup_update_other.
Qed.

(** ** Identifiers *)

Lemma hex_value_all_hex (s : string) (acc : N) :
  all_hex s = true -> exists n, hex_value s acc = Some n.
Proof.
  revert acc. induction s as [|c s IH]; simpl; intros acc Hs.
  - eauto.
  - apply andb_true_iff in Hs as [Hc Hs]. unfold is_hex in Hc.
    destruct (hex_digit c); [apply IH, Hs | discriminate].
Qed.



Lemma ObjectId_well_formed (s : string) :
  well_formed_id s = true -> exists o, ObjectId s = Ok o.
Proof.
  unfold well_formed_id, ObjectId. intros Hs.
  apply andb_true_iff in Hs as [Hl Hh]. rewrite Hl.
  destruct (hex_value_all_hex s 0%N Hh) as [n ->]. eauto.
Qed.


Lemma value_eqb_str (v : value) (s : string) :
  value_eqb v (VStr s) = true <-> v = VStr s.
Proof.
  destruct v; simpl; try (split; [discriminate | congruence]).
  rewrite String.eqb_eq. split; congruence.
Qed.


Lemma find_one_now `{Runtime} (n : string) (filt : dict) (w : world) :
  find_one n filt (snd (now w)) = find_one n filt w.
Proof. reflexivity. Qed.

(** ** Status validation *)

Lemma create_request_stores_payload `{Runtime} (payload : Request.t) (w : world) :
  let w' := snd (create_request payload w) in
  fst (create_request payload w) = Ok [("id", VStr (oid_str (next_oid w)))] /\
  collection "request" w'
  = (collection "request" w
     ++ [mkDoc (next_oid w)
               (set "created_at" (VDate (clock (ticks w)))
                    (Request.model_dump payload))])%list.
Proof.
  unfold create_request, create_document. simpl. split; [reflexivity|].
  rewrite collection_print.
  apply (collection_insert_same "request" _ (snd (now w))).
Qed.

(** C1 (the code at the failing input): [create_request] persists a request
    whose status is none of the three literals; the payload status is stored
    as it comes, and reading the request back shows it. *)
Theorem create_request_persists_unknown_status :
  let payload :=
    Request.mk "Tom" "tom@x.com" "0600000000" None None "Foo" None in
  let w := snd (@create_request demo_runtime payload empty_world) in
  existsb (String.eqb "Foo") statuses = false /\
  fst (@create_request demo_runtime payload empty_world)
  = Ok [("id", VStr "000000000000000000000000")] /\
  exists d, get_request "000000000000000000000000" w = Ok d
            /\ lookup "status" d = Some (VStr "Foo").
Proof.
  simpl. repeat split. eexists. split; reflexivity.
Qed.

(** ** Status update *)



(** ** Malformed identifiers *)




(** ** Login *)

(** C8: an unknown email and a wrong password for a known email fail the same
    way, with 401 and one message; the two results are equal. *)
Theorem login_failures_indistinguishable (w : world)
  (unknown wrong : LoginPayload.t) (user : document) :
  find_one "user" [("email", VStr (LoginPayload.email unknown))] w = None ->
  find_one "user" [("email", VStr (LoginPayload.email wrong))] w = Some user ->
  doc_get user "password" VNone <> VStr (LoginPayload.password wrong) ->
  login unknown w = Raise (HTTPException 401 "Identifiants invalides") /\
  login wrong w = Raise (HTTPException 401 "Identifiants invalides") /\
  login unknown w = login wrong w.
Proof.
  intros Hu Hw Hp. unfold login. rewrite Hu, Hw.
  destruct (value_eqb _ _) eqn:E.
  - apply value_eqb_str in E. contradiction.
  - simpl. repeat split.
Qed.

Lemma login_failures_indistinguishable_witness :
  login (LoginPayload.mk "bob@x.com" "secret") users_world
  = Raise (HTTPException 401 "Identifiants invalides") /\
  login (LoginPayload.mk "ana@x.com" "guess") users_world
  = Raise (HTTPException 401 "Identifiants invalides") /\
  login (LoginPayload.mk "bob@x.com" "secret") users_world
  = login (LoginPayload.mk "ana@x.com" "guess") users_world.
Proof.
  apply (login_failures_indistinguishable users_world
           (LoginPayload.mk "bob@x.com" "secret")
           (LoginPayload.mk "ana@x.com" "guess")
           (mkDoc 0%N [ ("name", VStr "Ana"); ("email", VStr "ana@x.com");
                        ("password", VStr "secret") ])).
  - reflexivity.
  - reflexivity.
  - discriminate.
Defined.

(** ** History *)

Lemma next_oid_update_one (n : string) (filt upd : dict) (w : world) :
  next_oid (snd (update_one n filt upd w)) = next_oid w.
Proof.
  unfold update_one.
  destruct (update_first filt upd (collection n w)) as [k r]; simpl.
  now destruct (k =? 0)%nat.
Qed.

Lemma ticks_update_one (n : string) (filt upd : dict) (w : world) :
  ticks (snd (update_one n filt upd w)) = ticks w.
Proof.
  unfold update_one.
  destruct (update_first filt upd (collection n w)) as [k r]; simpl.
  now destruct (k =? 0)%nat.
Qed.

Lemma find_app (n : string) (filt : dict) (w w' : world) (d : document) :
  collection n w' = (collection n w ++ [d])%list ->
  find n filt w'
  = (find n filt w ++ if matches filt d then [d] else [])%list.
Proof.
  intros Hc. unfold find. rewrite Hc, filter_app. simpl.
  now destruct (matches filt d).
Qed.

(** What a successful [update_status] does to the log collection. *)
Lemma update_status_log `{Runtime} (req_id : string) (payload : StatusUpdate.t)
  (w w' : world) (r : dict) :
  update_status req_id payload w = (Ok r, w') ->
  exists o,
    ObjectId req_id = Ok o /\
    collection "request_log" w'
    = (collection "request_log" w
       ++ [mkDoc (next_oid w)
                 (log_entry o (StatusUpdate.status payload)
                            (clock (S (ticks w))))])%list.
Proof.
  unfold update_status.
  destruct (negb (existsb _ statuses)); [discriminate|].
  destruct (ObjectId req_id) as [o|e]; [|discriminate].
  intros Hu. exists o. split; [reflexivity|].
  pose proof (collection_update_other "request_log" "request"
                [("_id", VOid o)]
                [("status", VStr (StatusUpdate.status payload));
                 ("updated_at", VDate (clock (ticks w)))] (snd (now w))) as Hc.
  pose proof (next_oid_update_one "request" [("_id", VOid o)]
                [("status", VStr (StatusUpdate.status payload));
                 ("updated_at", VDate (clock (ticks w)))] (snd (now w))) as Hn.
  pose proof (ticks_update_one "request" [("_id", VOid o)]
                [("status", VStr (StatusUpdate.status payload));
                 ("updated_at", VDate (clock (ticks w)))] (snd (now w))) as Ht.
  simpl in Hu, Hc, Hn, Ht.
  destruct (update_one "request" _ _ _) as [k w2].
  simpl in Hc, Hn, Ht.
  destruct (k =? 0)%nat; [discriminate|].
  assert (Hlog : collection "request_log" w'
                 = (collection "request_log" w2
                    ++ [mkDoc (next_oid w2)
                              (log_entry o (StatusUpdate.status payload)
                                 (clock (ticks w2)))])%list).
  { destruct (String.eqb (StatusUpdate.status payload) "Confirmé");
      [destruct (find_one "request" _ _)|];
      injection Hu as _ <-; rewrite ?collection_print;
      apply (collection_insert_same "request_log" _ (snd (now w2))). }
  rewrite Hlog, Hn, Ht. rewrite Hc by discriminate. reflexivity.
Qed.

Lemma matches_log_entry (o o' : oid) (n : oid) (st : string) (t : datetime) :
  matches [("request_id", VOid o')] (mkDoc n (log_entry o st t)) = N.eqb o o'.
Proof. unfold matches; simpl. apply andb_true_r. Qed.

(** C3: a successful [update_status] appends exactly one entry to the log, for
    the id of the call and with the status just applied: the history of that
    id gains this one entry at its end, so its length grows by exactly one,
    and the history of every other id is unchanged. *)
Theorem update_status_appends_one_history_entry `{Runtime} (req_id : string)
  (payload : StatusUpdate.t) (w w' : world) (r : dict) :
  update_status req_id payload w = (Ok r, w') ->
  exists (o : oid) (h : list dict) (entry : dict),
    ObjectId req_id = Ok o /\
    get_history req_id w = Ok h /\
    get_history req_id w' = Ok (h ++ [entry])%list /\
    lookup "request_id" entry = Some (VOid o) /\
    lookup "status" entry = Some (VStr (StatusUpdate.status payload)) /\
    List.length (h ++ [entry]) = S (List.length h) /\
    List.length (collection "request_log" w')
    = S (List.length (collection "request_log" w)) /\
    forall (other : string) (o' : oid),
      ObjectId other = Ok o' -> o' <> o ->
      get_history other w' = get_history other w.
Proof.
  intros Hu. destruct (update_status_log _ _ _ _ _ Hu) as (o & Ho & Hlog).
  set (st := StatusUpdate.status payload) in *.
  set (t := clock (S (ticks w))) in *.
  exists o, (map to_public (find "request_log" [("request_id", VOid o)] w)),
         (to_public (mkDoc (next_oid w) (log_entry o st t))).
  split; [exact Ho|].
  split; [unfold get_history; now rewrite Ho|].
  split.
  { unfold get_history. rewrite Ho. simpl.
    rewrite (find_app _ _ _ _ _ Hlog), matches_log_entry, N.eqb_refl.
    now rewrite map_app. }
  split; [reflexivity|].
  split; [reflexivity|].
  split; [rewrite length_app; simpl; lia|].
  split; [rewrite Hlog, length_app; simpl; lia|].
  intros other o' Ho' Hneq. unfold get_history. rewrite Ho'. simpl.
  rewrite (find_app _ _ _ _ _ Hlog), matches_log_entry.
  apply N.eqb_neq in Hneq. rewrite N.eqb_sym in Hneq. rewrite Hneq.
  now rewrite app_nil_r.
Qed.

Lemma update_status_appends_one_history_entry_witness :
  let id := "000000000000000000000000" in
  let w := one_request_world in
  let w' := snd (@update_status demo_runtime id (StatusUpdate.mk "Confirmé") w) in
  exists (o : oid) (h : list dict) (entry : dict),
    ObjectId id = Ok o /\
    get_history id w = Ok h /\
    get_history id w' = Ok (h ++ [entry])%list /\
    lookup "request_id" entry = Some (VOid o) /\
    lookup "status" entry = Some (VStr "Confirmé") /\
    List.length (h ++ [entry]) = S (List.length h) /\
    List.length (collection "request_log" w')
    = S (List.length (collection "request_log" w)) /\
    forall (other : string) (o' : oid),
      ObjectId other = Ok o' -> o' <> o ->
      get_history other w' = get_history other w.
Proof.
  apply (@update_status_appends_one_history_entry demo_runtime
           "000000000000000000000000" (StatusUpdate.mk "Confirmé")
           one_request_world _ [("ok", VBool true)]).
  reflexivity.
Defined.

(** ** Onboarding and content retrieval *)

Lemma max_by_id_app_fresh (docs : list document) (o : oid) (f : dict) :
  Forall (fun d => (_id d < o)%N) docs ->
  max_by_id (docs ++ [mkDoc o f]) = Some (mkDoc o f).
Proof.
  induction 1 as [|d docs Hd _ IH]; simpl; [reflexivity|].
  rewrite IH. simpl. apply N.ltb_lt in Hd. now rewrite Hd.
Qed.

Lemma find_one_latest_created (n : string) (data : dict) (w : world) :
  fresh_ids n w ->
  find_one_latest n (snd (create_document n data w))
  = Some (mkDoc (next_oid w) data).
Proof.
  intros Hf. unfold find_one_latest, create_document.
  pose proof (collection_insert_same n data w) as Hc.
  destruct (insert_one n data w) as [o w1]. simpl in *.
  rewrite Hc. now apply max_by_id_app_fresh.
Qed.

(** C7: after [onboarding] of Claire's profile, [get_content] returns an
    intro that contains the name, the trade and the town verbatim, a FAQ of
    exactly four entries, and exactly two service descriptions, titled
    "Coupe" and "Couleur" in that order. *)
Theorem onboarding_get_content_round_trip `{Runtime} (w : world) :
  fresh_ids "business" w ->
  let content := get_content (snd (onboarding claire w)) in
  exists (intro : string) (faq : list value) (d1 d2 : dict),
    lookup "intro" content = Some (VStr intro) /\
    contains "Claire" intro = true /\
    contains "coiffeuse" intro = true /\
    contains "Lyon" intro = true /\
    lookup "faq" content = Some (VList faq) /\
    List.length faq = 4 /\
    lookup "services" content = Some (VList [VDict d1; VDict d2]) /\
    lookup "title" d1 = Some (VStr "Coupe") /\
    lookup "title" d2 = Some (VStr "Couleur").
Proof.
  intros Hf content. subst content. unfold get_content, onboarding.
  match goal with
  | |- context [create_document "business" ?data w] =>
      pose proof (find_one_latest_created "business" data w Hf) as Hl;
      destruct (create_document "business" data w) as [bid w1]
  end.
  simpl in Hl. simpl snd. rewrite Hl.
  do 4 eexists. repeat split; reflexivity.
Qed.

Lemma onboarding_get_content_round_trip_witness :
  fresh_ids "business" empty_world /\
  lookup "intro" (@get_content demo_runtime
                    (snd (@onboarding demo_runtime claire empty_world)))
  = Some (VStr (generate_intro "Claire" "coiffeuse" "Lyon")).
Proof.
  split; [constructor|].
  destruct (@onboarding_get_content_round_trip demo_runtime empty_world)
    as (intro & faq & d1 & d2 & Hi & _); [constructor|].
  reflexivity.
Defined.

(** ** Reply selection *)

Lemma select_reply_after_no_faq_reply `{Runtime} (content : dict) (text : string) :
  faq_lookup content text = Ok VNone ->
  select_reply content text = fallback content text.
Proof. intros Hf. unfold select_reply, fallback. now rewrite Hf. Qed.




(** C10: when the FAQ list of the content is empty the loop body never runs:
    no keyword branch can set the reply, the price branch included, and the
    answer is the one of the service-suggestion step followed by the
    greeting. *)
Theorem empty_faq_disables_keyword_branches `{Runtime}
  (content : dict) (text : string) :
  py_iter (faq_of content) = Ok [] ->
  faq_lookup content text = Ok VNone /\
  select_reply content text = fallback content text.
Proof.
  intros Hi.
  assert (Hf : faq_lookup content text = Ok VNone)
    by (unfold faq_lookup; now rewrite Hi).
  split; [exact Hf|]. now apply select_reply_after_no_faq_reply.
Qed.

Lemma empty_faq_disables_keyword_branches_witness :
  any_in price_keywords "quel est le prix ?" = true /\
  @faq_lookup demo_runtime bare_content "quel est le prix ?" = Ok VNone /\
  @select_reply demo_runtime bare_content "quel est le prix ?"
  = Ok (VStr default_greeting).
Proof.
  split; [reflexivity|].
  destruct (@empty_faq_disables_keyword_branches demo_runtime bare_content
              "quel est le prix ?") as (Hf & Hs).
  - reflexivity.
  - split; [exact Hf|]. rewrite Hs. reflexivity.
Defined.

(** ** Identifiers stay fresh and round-trip through their rendering *)

Lemma create_document_fresh_ids (n m : string) (data : dict) (w : world) :
  fresh_ids n w -> fresh_ids n (snd (create_document m data w)).
Proof.
  unfold fresh_ids, create_document. intros Hf.
  pose proof (collection_insert_same m data w) as Hsame.
  pose proof (collection_insert_other n m data w) as Hother.
  assert (Hnext : next_oid (snd (insert_one m data w)) = N.succ (next_oid w))
    by reflexivity.
  destruct (insert_one m data w) as [o w1]. simpl in *. rewrite Hnext.
  assert (Hold : Forall (fun d => (_id d < N.succ (next_oid w))%N)
                        (collection n w))
    by (eapply Forall_impl; [|exact Hf]; simpl; intros; lia).
  destruct (String.eqb_spec n m) as [->|Hnm].
  - rewrite Hsame. apply Forall_app. split; [exact Hold|].
    constructor; [simpl; lia | constructor].
  - now rewrite Hother.
Qed.

Lemma string_length_app (s1 s2 : string) :
  String.length (s1 ++ s2) = String.length s1 + String.length s2.
Proof. induction s1; simpl; auto. Qed.

Lemma hex_pad_length (w : nat) (n : N) : String.length (hex_pad w n) = w.
Proof.
  revert n. induction w as [|w IH]; intros n; simpl; [reflexivity|].
  rewrite string_length_app, IH. simpl. lia.
Qed.

Lemma hex_digit_hex_char (d : N) :
  (d < 16)%N -> hex_digit (hex_char d) = Some d.
Proof.
  intros Hd. destruct d as [|p]; [reflexivity|].
  do 4 (destruct p as [p|p|]; try reflexivity); exfalso; lia.
Qed.

Lemma hex_value_app (s1 s2 : string) (acc : N) :
  hex_value (s1 ++ s2) acc
  = match hex_value s1 acc with
    | Some a => hex_value s2 a
    | None => None
    end.
Proof.
  revert acc. induction s1 as [|c s1 IH]; intros acc; simpl; [reflexivity|].
  destruct (hex_digit c); auto.
Qed.

Lemma hex_value_hex_pad (w : nat) (n acc : N) :
  hex_value (hex_pad w n) acc = Some (acc * 16 ^ N.of_nat w + n mod 16 ^ N.of_nat w)%N.
Proof.
  revert n acc. induction w as [|w IH]; intros n acc.
  - simpl. f_equal. rewrite N.mod_1_r. lia.
  - cbn [hex_pad]. rewrite hex_value_app, IH. cbn [hex_value].
    rewrite hex_digit_hex_char by (apply N.mod_lt; lia).
    f_equal. rewrite Nat2N.inj_succ, N.pow_succ_r'.
    rewrite (N.Div0.mod_mul_r n 16 (16 ^ N.of_nat w)). lia.
Qed.

Lemma ObjectId_oid_str (o : oid) :
  (o < 16 ^ 24)%N -> ObjectId (oid_str o) = Ok o.
Proof.
  intros Ho. unfold ObjectId, oid_str.
  rewrite hex_pad_length, hex_value_hex_pad. simpl Nat.eqb. cbn match.
  change (N.of_nat 24) with 24%N. rewrite N.mod_small by exact Ho.
  now rewrite N.mul_0_l.
Qed.

(** ** Public rendering of documents *)

Lemma lookup_map_iso (k : string) (d : dict) :
  lookup k (map (fun kv => (fst kv, iso (snd kv))) d)
  = option_map iso (lookup k d).
Proof.
  induction d as [|[k' v] d IH]; simpl; [reflexivity|].
  now destruct (String.eqb k k').
Qed.

Lemma lookup_set_same (k : string) (v : value) (d : dict) :
  lookup k (set k v d) = Some v.
Proof.
  induction d as [|[k' v'] d IH]; simpl.
  - now rewrite String.eqb_refl.
  - destruct (String.eqb k k') eqn:E; simpl; rewrite ?String.eqb_refl, ?E; auto.
Qed.

Lemma lookup_set_other (k k' : string) (v : value) (d : dict) :
  k <> k' -> lookup k (set k' v d) = lookup k d.
Proof.
  intros Hk. apply String.eqb_neq in Hk.
  induction d as [|[k2 v2] d IH]; simpl.
  - now rewrite Hk.
  - destruct (String.eqb k' k2) eqn:E; simpl.
    + apply String.eqb_eq in E. subst k2. now rewrite Hk.
    + now destruct (String.eqb k k2).
Qed.

Lemma lookup_to_public (k : string) (d : document) :
  k <> "id" ->
  lookup k (to_public d) = option_map iso (lookup k (fields d)).
Proof.
  intros Hk. unfold to_public. now rewrite lookup_map_iso, lookup_set_other.
Qed.

Lemma lookup_to_public_id (d : document) :
  lookup "id" (to_public d) = Some (VStr (oid_str (_id d))).
Proof. unfold to_public. now rewrite lookup_map_iso, lookup_set_same. Qed.

(** ** The reply selection is total on generated content *)



Lemma generate_service_descriptions_titled `{Runtime} (services : list string) :
  Forall titled (map VDict (generate_service_descriptions services)).
Proof.
  induction services as [|s services IH]; simpl; constructor; auto.
  now do 2 eexists.
Qed.

Lemma generate_faq_qa (nom metier localisation horaires : string) :
  Forall qa_entry (map VDict (generate_faq nom metier localisation horaires)).
Proof. repeat constructor; now do 3 eexists. Qed.


Lemma onboarding_business_ok `{Runtime} (payload : OnboardingPayload.t)
  (w : world) :
  Forall business_ok (collection "business" w) ->
  Forall business_ok (collection "business" (snd (onboarding payload w))).
Proof.
  intros Hb. unfold onboarding, create_document.
  match goal with
  | |- context [insert_one "business" ?data w] =>
      pose proof (collection_insert_same "business" data w) as Hc;
      destruct (insert_one "business" data w) as [o w1]
  end.
  simpl in *. rewrite Hc. apply Forall_app. split; [exact Hb|].
  constructor; [|constructor]. split; simpl.
  - apply (generate_faq_qa (OnboardingPayload.nom payload)).
  - apply generate_service_descriptions_titled.
Qed.






(** ** Leads created by the assistant *)

Lemma matches_id (o : oid) (d : document) :
  matches [("_id", VOid o)] d = N.eqb (_id d) o.
Proof. unfold matches; simpl. apply andb_true_r. Qed.






(** ** Ordering of strings *)

Lemma string_compare_trans (a b c : string) :
  String.compare a b <> Gt -> String.compare b c <> Gt ->
  String.compare a c <> Gt.
Proof.
  revert b c. induction a as [|x a IH]; intros [|y b] [|z c]; simpl;
    try congruence.
  unfold Ascii.compare.
  destruct (N.compare_spec (N_of_ascii x) (N_of_ascii y)) as [Hxy|Hxy|Hxy];
    destruct (N.compare_spec (N_of_ascii y) (N_of_ascii z)) as [Hyz|Hyz|Hyz];
    try congruence; intros H1 H2.
  - rewrite Hxy, Hyz, N.compare_refl. now apply (IH b c).
  - assert (Hlt : (N_of_ascii x ?= N_of_ascii z)%N = Lt)
      by (apply N.compare_lt_iff; lia).
    rewrite Hlt. discriminate.
  - assert (Hlt : (N_of_ascii x ?= N_of_ascii z)%N = Lt)
      by (apply N.compare_lt_iff; lia).
    rewrite Hlt. discriminate.
  - assert (Hlt : (N_of_ascii x ?= N_of_ascii z)%N = Lt)
      by (apply N.compare_lt_iff; lia).
    rewrite Hlt. discriminate.
Qed.

Lemma string_leb_compare (a b : string) :
  String.leb a b = true <-> String.compare a b <> Gt.
Proof.
  unfold String.leb. destruct (String.compare a b); split; congruence.
Qed.

Lemma string_leb_trans (a b c : string) :
  String.leb a b = true -> String.leb b c = true -> String.leb a c = true.
Proof. rewrite !string_leb_compare. apply string_compare_trans. Qed.

Lemma string_ltb_leb (a b : string) :
  String.ltb a b = true -> String.leb a b = true.
Proof.
  unfold String.ltb, String.leb. now destruct (String.compare a b).
Qed.

Lemma string_not_ltb_leb (a b : string) :
  String.ltb a b = false -> String.leb b a = true.
Proof.
  unfold String.ltb, String.leb. rewrite (String.compare_antisym b a).
  now destruct (String.compare a b).
Qed.

Lemma string_leb_empty (s : string) : String.leb s "" = true -> s = "".
Proof. destruct s; [reflexivity | discriminate]. Qed.

(** ** Sorting *)

Section Sorting.

Variable key : dict -> value.
Variable text : dict -> string.

Let keyed (x : dict) : Prop := key x = VStr (text x).
Let desc (a b : dict) : Prop := String.leb (text b) (text a) = true.

Lemma desc_trans (a b c : dict) : desc a b -> desc b c -> desc a c.
Proof. unfold desc. intros Hab Hbc. now apply (string_leb_trans _ (text b)). Qed.

Lemma insert_desc_sorted (x : dict) (l : list dict) :
  keyed x -> Forall keyed l -> StronglySorted desc l ->
  exists r, insert_desc key x l = Ok r /\ Permutation (x :: l) r
            /\ StronglySorted desc r.
Proof.
  intros Hx Hl Hs. induction l as [|y l IH]; simpl.
  - exists [x]. repeat split; auto. repeat constructor.
  - inversion Hl as [|? ? Hy Hl']; subst.
    inversion Hs as [|? ? Hs' Hall]; subst.
    rewrite Hx, Hy. simpl.
    destruct (String.ltb (text x) (text y)) eqn:E.
    + destruct (IH Hl' Hs') as (r & -> & Hp & Hr). simpl.
      exists (y :: r). split; [reflexivity|]. split.
      * rewrite perm_swap. now constructor.
      * constructor; [exact Hr|].
        apply (Permutation_Forall Hp). constructor; [|exact Hall].
        now apply string_ltb_leb.
    + exists (x :: y :: l). split; [reflexivity|]. split; [reflexivity|].
      assert (Hxy : desc x y) by now apply string_not_ltb_leb.
      constructor; [exact Hs|]. constructor; [exact Hxy|].
      eapply Forall_impl; [|exact Hall].
      intros z Hz. now apply (desc_trans x y z).
Qed.

Lemma sort_desc_sorted (l : list dict) :
  Forall keyed l ->
  exists r, sort_desc key l = Ok r /\ Permutation l r /\ StronglySorted desc r.
Proof.
  induction 1 as [|x l Hx Hl (r & Hr & Hp & Hs)]; simpl.
  - exists []. repeat split; auto. constructor.
  - rewrite Hr. simpl.
    destruct (insert_desc_sorted x r Hx (Permutation_Forall Hp Hl) Hs)
      as (r' & Hr' & Hp' & Hs').
    exists r'. repeat split; auto.
    now rewrite <- Hp', <- Hp.
Qed.

End Sorting.

(** ** The ISO rendering preserves chronological order *)

Lemma compare_app_same_length (a b x y : string) :
  String.length a = String.length b ->
  String.compare (a ++ x) (b ++ y)
  = match String.compare a b with
    | Eq => String.compare x y
    | c => c
    end.
Proof.
  revert b. induction a as [|c a IH]; intros [|d b] Hl; simpl in *;
    try discriminate; [reflexivity|].
  destruct (Ascii.compare c d); auto.
Qed.

Lemma compare_same_head (c : ascii) (x y : string) :
  String.compare (String c x) (String c y) = String.compare x y.
Proof. simpl. unfold Ascii.compare. now rewrite N.compare_refl. Qed.

Lemma pad_length (w : nat) (n : N) : String.length (pad w n) = w.
Proof.
  revert n. induction w as [|w IH]; intros n; simpl; [reflexivity|].
  rewrite string_length_app, IH. simpl. lia.
Qed.

Lemma compare_digit (n m : N) :
  Ascii.compare (digit n) (digit m) = N.compare (n mod 10) (m mod 10).
Proof.
  unfold Ascii.compare, digit.
  assert (Hn : (n mod 10 < 10)%N) by (apply N.mod_lt; lia).
  assert (Hm : (m mod 10 < 10)%N) by (apply N.mod_lt; lia).
  rewrite !N_ascii_embedding by lia.
  destruct (N.compare_spec (n mod 10) (m mod 10));
    [apply N.compare_eq_iff | apply N.compare_lt_iff
     | apply N.compare_gt_iff]; lia.
Qed.

Lemma compare_by_digits (n m : N) :
  N.compare n m
  = match N.compare (n / 10) (m / 10) with
    | Eq => N.compare (n mod 10) (m mod 10)
    | c => c
    end.
Proof.
  assert (Hn : n = (10 * (n / 10) + n mod 10)%N) by (apply N.div_mod; lia).
  assert (Hm : m = (10 * (m / 10) + m mod 10)%N) by (apply N.div_mod; lia).
  assert (Hn' : (n mod 10 < 10)%N) by (apply N.mod_lt; lia).
  assert (Hm' : (m mod 10 < 10)%N) by (apply N.mod_lt; lia).
  revert Hn Hm Hn' Hm'.
  generalize (n / 10)%N (n mod 10)%N (m / 10)%N (m mod 10)%N.
  intros q r q' r' -> -> Hr Hr'.
  destruct (N.compare_spec q q') as [Hq|Hq|Hq].
  - destruct (N.compare_spec r r');
      [apply N.compare_eq_iff | apply N.compare_lt_iff
       | apply N.compare_gt_iff]; lia.
  - apply N.compare_lt_iff; lia.
  - apply N.compare_gt_iff; lia.
Qed.

Lemma compare_pad (w : nat) (n m : N) :
  (n < 10 ^ N.of_nat w)%N -> (m < 10 ^ N.of_nat w)%N ->
  String.compare (pad w n) (pad w m) = N.compare n m.
Proof.
  revert n m. induction w as [|w IH]; intros n m Hn Hm.
  - simpl in *. assert (n = 0%N) by lia. assert (m = 0%N) by lia. now subst.
  - cbn [pad]. rewrite compare_app_same_length by now rewrite !pad_length.
    rewrite Nat2N.inj_succ, N.pow_succ_r' in Hn, Hm.
    rewrite IH by (apply N.Div0.div_lt_upper_bound; lia).
    rewrite (compare_by_digits n m). simpl String.compare.
    rewrite compare_digit.
    now destruct (n / 10 ?= m / 10)%N, (n mod 10 ?= m mod 10)%N.
Qed.

Lemma compare_pad_app (w : nat) (n m : N) (x y : string) :
  (n < 10 ^ N.of_nat w)%N -> (m < 10 ^ N.of_nat w)%N ->
  String.compare (pad w n ++ x) (pad w m ++ y)
  = match N.compare n m with
    | Eq => String.compare x y
    | c => c
    end.
Proof.
  intros Hn Hm. rewrite compare_app_same_length by now rewrite !pad_length.
  now rewrite compare_pad.
Qed.

Lemma compare_fraction (u v : N) :
  (u < 10 ^ N.of_nat 6)%N -> (v < 10 ^ N.of_nat 6)%N ->
  String.compare (if (u =? 0)%N then "" else "." ++ pad 6 u)
                 (if (v =? 0)%N then "" else "." ++ pad 6 v)
  = N.compare u v.
Proof.
  intros Hu Hv.
  destruct (N.eqb_spec u 0) as [->|Hu0], (N.eqb_spec v 0) as [->|Hv0].
  - reflexivity.
  - symmetry. apply N.compare_lt_iff. lia.
  - symmetry. apply N.compare_gt_iff. lia.
  - change ("." ++ pad 6 u) with (String "." (pad 6 u)).
    change ("." ++ pad 6 v) with (String "." (pad 6 v)).
    rewrite compare_same_head. now apply compare_pad.
Qed.

Lemma compare_sep_pad_app (c : ascii) (w : nat) (n m : N) (x y : string) :
  (n < 10 ^ N.of_nat w)%N -> (m < 10 ^ N.of_nat w)%N ->
  String.compare (String c "" ++ pad w n ++ x) (String c "" ++ pad w m ++ y)
  = match N.compare n m with
    | Eq => String.compare x y
    | c => c
    end.
Proof.
  intros Hn Hm.
  change (String c "" ++ pad w n ++ x) with (String c (pad w n ++ x)).
  change (String c "" ++ pad w m ++ y) with (String c (pad w m ++ y)).
  rewrite compare_same_head. now apply compare_pad_app.
Qed.

(** The comparison of two ISO texts, field after field. *)
Lemma compare_isoformat (a b : datetime) :
  valid_datetime a -> valid_datetime b ->
  String.compare (isoformat a) (isoformat b)
  = fold_right (fun p k => match N.compare (fst p) (snd p) with
                           | Eq => k
                           | c => c
                           end)
               Eq (combine (datetime_tuple a) (datetime_tuple b)).
Proof.
  intros (Ha1 & Ha2 & Ha3 & Ha4 & Ha5 & Ha6 & Ha7)
         (Hb1 & Hb2 & Hb3 & Hb4 & Hb5 & Hb6 & Hb7).
  unfold isoformat, datetime_tuple. cbn [combine fold_right fst snd].
  rewrite compare_pad_app by assumption.
  rewrite !compare_sep_pad_app by assumption.
  rewrite compare_fraction by assumption.
  now destruct (microsecond a ?= microsecond b)%N.
Qed.

Lemma lex_ltb_compare (l1 l2 : list N) :
  lex_ltb l1 l2 = true ->
  List.length l1 = List.length l2 ->
  fold_right (fun p k => match N.compare (fst p) (snd p) with
                         | Eq => k
                         | c => c
                         end)
             Eq (combine l1 l2) = Lt.
Proof.
  revert l2. induction l1 as [|x l1 IH]; intros [|y l2]; simpl;
    try discriminate.
  intros Hlt Hlen. destruct (N.compare_spec x y) as [Heq|Hxy|Hxy].
  - subst y. rewrite N.ltb_irrefl, N.eqb_refl in Hlt. simpl in Hlt.
    apply IH; [exact Hlt | lia].
  - reflexivity.
  - exfalso. apply orb_true_iff in Hlt as [Hlt|Hlt].
    + apply N.ltb_lt in Hlt. lia.
    + apply andb_true_iff in Hlt as [Hlt _]. apply N.eqb_eq in Hlt. lia.
Qed.

(** An earlier datetime has a smaller ISO text. *)
Lemma isoformat_increasing (a b : datetime) :
  valid_datetime a -> valid_datetime b ->
  datetime_ltb a b = true ->
  String.ltb (isoformat a) (isoformat b) = true.
Proof.
  intros Ha Hb Hlt. unfold String.ltb.
  rewrite (compare_isoformat a b Ha Hb).
  now rewrite (lex_ltb_compare _ _ Hlt).
Qed.

(** ** Listing requests *)

Lemma created_at_key_public (d : document) :
  timestamp_ok d ->
  created_at_key (to_public d) = VStr (stored_text d) /\
  created_text (to_public d) = stored_text d.
Proof.
  unfold timestamp_ok, created_text, created_at_key, get, stored_text.
  rewrite lookup_to_public by discriminate.
  destruct (lookup "created_at" (fields d)) as [[]|]; simpl;
    intros Hok; try contradiction; now split.
Qed.

Lemma get_documents_retained (status : option string) (w : world) :
  get_documents "request"
    (if truthy (opt_str status) then [("status", opt_str status)] else []) w
  = retained status (collection "request" w).
Proof.
  unfold get_documents, find, retained.
  assert (Hall : forall l, filter (matches []) l = l).
  { induction l as [|d l IH]; simpl; congruence. }
  destruct status as [s|]; simpl; [|apply Hall].
  destruct (String.eqb s ""); simpl; [apply Hall|].
  apply filter_ext. intros d. unfold matches, has_status. simpl.
  apply andb_true_r.
Qed.

Lemma retained_incl (status : option string) (docs : list document) :
  incl (retained status docs) docs.
Proof.
  unfold retained. destruct status as [s|]; [|apply incl_refl].
  destruct (String.eqb s ""); [apply incl_refl|]. apply incl_filter.
Qed.

Lemma sorted_empty_last (res : list dict) :
  StronglySorted newest_first res ->
  forall l1 x l2, res = (l1 ++ x :: l2)%list -> created_text x = "" ->
                  Forall (fun y => created_text y = "") l2.
Proof.
  intros Hs l1. revert res Hs.
  induction l1 as [|z l1 IH]; intros res Hs x l2 -> Hx; simpl in Hs;
    inversion Hs as [|? ? Hs' Hall]; subst.
  - eapply Forall_impl; [|exact Hall]. intros y Hy.
    unfold newest_first in Hy. rewrite Hx in Hy. now apply string_leb_empty.
  - now apply (IH _ Hs' x l2).
Qed.

Lemma sorted_before_after (l1 : list dict) (x : dict) (l2 : list dict)
  (y : dict) (l3 : list dict) :
  StronglySorted newest_first (l1 ++ x :: l2 ++ y :: l3) -> newest_first x y.
Proof.
  induction l1 as [|z l1 IH]; simpl; intros Hs;
    inversion Hs as [|? ? Hs' Hall]; subst; [|now apply IH].
  rewrite Forall_forall in Hall. apply Hall.
  apply in_or_app. right. now left.
Qed.

(** C5 (amended): provided every stored creation timestamp is absent, a
    string or a datetime, [list_requests] returns, for a non-empty status
    filter, exactly the requests whose status equals it and, for an absent or
    empty filter, all requests; the result is in descending order of the
    public creation text (the ISO rendering of a datetime), and the records
    whose key is the empty-string fallback come last. *)
Theorem list_requests_filtered_newest_first (status : option string)
  (w : world) :
  Forall timestamp_ok (collection "request" w) ->
  exists res : list dict,
    list_requests status w = Ok res /\
    Permutation (map to_public (retained status (collection "request" w))) res /\
    (forall s, status = Some s -> s <> "" ->
               Forall (fun x => lookup "status" x = Some (VStr s)) res) /\
    StronglySorted newest_first res /\
    (forall l1 x l2, res = (l1 ++ x :: l2)%list -> created_text x = "" ->
                     Forall (fun y => created_text y = "") l2) /\
    (forall d, In d (collection "request" w) ->
               created_text (to_public d) = stored_text d) /\
    (forall l1 d1 l2 d2 l3 t1 t2,
        res = (l1 ++ to_public d1 :: l2 ++ to_public d2 :: l3)%list ->
        In d1 (collection "request" w) -> In d2 (collection "request" w) ->
        lookup "created_at" (fields d1) = Some (VDate t1) ->
        lookup "created_at" (fields d2) = Some (VDate t2) ->
        valid_datetime t1 -> valid_datetime t2 ->
        datetime_ltb t1 t2 = false).
Proof.
  intros Hok. unfold list_requests. rewrite get_documents_retained.
  set (docs := retained status (collection "request" w)).
  assert (Hdocs : Forall timestamp_ok docs).
  { rewrite Forall_forall in Hok |- *. intros d Hd.
    apply Hok. now apply (retained_incl status _ d). }
  assert (Hkeyed : Forall (fun x => created_at_key x = VStr (created_text x))
                          (map to_public docs)).
  { apply Forall_map. eapply Forall_impl; [|exact Hdocs].
    intros d Hd. destruct (created_at_key_public d Hd) as [Hk Ht].
    now rewrite Hk, Ht. }
  destruct (sort_desc_sorted created_at_key created_text _ Hkeyed)
    as (res & Hres & Hperm & Hsorted).
  exists res. split; [exact Hres|]. split; [exact Hperm|].
  assert (Htext : forall d, In d (collection "request" w) ->
                            created_text (to_public d) = stored_text d).
  { intros d Hd. rewrite Forall_forall in Hok.
    now apply created_at_key_public, Hok. }
  split; [|split; [exact Hsorted|split; [now apply sorted_empty_last|]]];
    [|split; [exact Htext|]].
  - intros s -> Hs. apply (Permutation_Forall Hperm). apply Forall_map.
    subst docs. unfold retained. apply String.eqb_neq in Hs. rewrite Hs.
    apply Forall_forall. intros d Hd. apply filter_In in Hd as [_ Hd].
    unfold has_status in Hd. apply value_eqb_str in Hd.
    rewrite lookup_to_public by discriminate.
    unfold doc_get, doc_lookup in Hd. simpl in Hd.
    destruct (lookup "status" (fields d)) as [v|]; [|discriminate].
    now subst v.
  - intros l1 d1 l2 d2 l3 t1 t2 -> Hd1 Hd2 Ht1 Ht2 Hv1 Hv2.
    pose proof (sorted_before_after _ _ _ _ _ Hsorted) as Hord.
    unfold newest_first in Hord.
    rewrite (Htext d1 Hd1), (Htext d2 Hd2) in Hord.
    unfold stored_text in Hord. rewrite Ht1, Ht2 in Hord.
    destruct (datetime_ltb t1 t2) eqn:E; [|reflexivity].
    apply (isoformat_increasing t1 t2 Hv1 Hv2) in E.
    unfold String.ltb in E. unfold String.leb in Hord.
    rewrite (String.compare_antisym (isoformat t2)) in Hord.
    destruct (String.compare (isoformat t1) (isoformat t2)); discriminate.
Qed.

Lemma list_requests_filtered_newest_first_witness :
  Forall timestamp_ok (collection "request" two_requests_world) /\
  exists res : list dict,
    list_requests (Some "Nouveau") two_requests_world = Ok res /\
    List.length res = 2 /\
    StronglySorted newest_first res.
Proof.
  assert (Hok : Forall timestamp_ok (collection "request" two_requests_world))
    by (repeat constructor).
  split; [exact Hok|].
  destruct (list_requests_filtered_newest_first (Some "Nouveau")
              two_requests_world Hok) as (res & Hres & Hperm & _ & Hs & _).
  exists res. split; [exact Hres|]. split; [|exact Hs].
  now rewrite <- (Permutation_length Hperm).
Defined.

(** C5 (counterexample): an empty filter string is a filter that retains
    everything, so the result holds a request whose status is not the filter
    value; and two records whose creation timestamp is [None], as the leads of
    the assistant are stored, make the sort raise [TypeError] instead of
    sorting them last. *)
Lemma list_requests_empty_filter_and_null_timestamps :
  (exists x, list_requests (Some "") one_request_world = Ok [x]
             /\ lookup "status" x = Some (VStr "Nouveau")) /\
  Forall (fun d => lookup "created_at" (fields d) = Some VNone)
         (collection "request" two_leads_world) /\
  List.length (collection "request" two_leads_world) = 2 /\
  list_requests None two_leads_world = Raise TypeError.
Proof.
  split; [eexists; split; reflexivity|].
  split; [repeat constructor|]. split; reflexivity.
Qed.

(** * Further properties of the handlers *)

(** ** Public documents and identifiers *)

Lemma all_hex_app (s1 s2 : string) :
  all_hex (s1 ++ s2) = all_hex s1 && all_hex s2.
Proof.
  induction s1 as [|c s1 IH]; simpl; [reflexivity|].
  now rewrite IH, andb_assoc.
Qed.

Lemma all_hex_hex_pad (w : nat) (n : N) : all_hex (hex_pad w n) = true.
Proof.
  revert n. induction w as [|w IH]; intros n; simpl; [reflexivity|].
  rewrite all_hex_app, IH. simpl. unfold is_hex.
  rewrite hex_digit_hex_char by (apply N.mod_lt; lia). reflexivity.
Qed.

Lemma oid_str_well_formed (o : oid) : well_formed_id (oid_str o) = true.
Proof.
  unfold well_formed_id, oid_str.
  now rewrite hex_pad_length, all_hex_hex_pad.
Qed.

(** X1: a public document has no datetime left at its top level, whatever the
    stored document, and its [id] is a well-formed identifier: 24 hexadecimal
    characters. *)
Theorem to_public_has_no_datetime_and_a_well_formed_id (d : document) :
  (forall k v, lookup k (to_public d) = Some v -> is_datetime v = false) /\
  exists id, lookup "id" (to_public d) = Some (VStr id)
             /\ well_formed_id id = true.
Proof.
  split.
  - intros k v. unfold to_public. rewrite lookup_map_iso.
    destruct (lookup k _) as [[]|]; simpl; intros [= <-]; reflexivity.
  - exists (oid_str (_id d)). split.
    + apply lookup_to_public_id.
    + apply oid_str_well_formed.
Qed.

(** X2: every field of the stored document other than [id] is still there in
    the public document, unchanged unless it is a datetime, which is replaced
    by its ISO text. *)
Theorem to_public_keeps_the_other_fields (d : document) (k : string) :
  k <> "id" ->
  lookup k (to_public d)
  = match lookup k (fields d) with
    | Some (VDate t) => Some (VStr (isoformat t))
    | other => other
    end.
Proof.
  intros Hk. rewrite (lookup_to_public k d Hk).
  now destruct (lookup k (fields d)) as [[]|].
Qed.

Lemma to_public_keeps_the_other_fields_witness :
  lookup "status" (to_public (mkDoc 7%N [("status", VStr "Nouveau")]))
  = Some (VStr "Nouveau").
Proof.
  rewrite (to_public_keeps_the_other_fields
             (mkDoc 7%N [("status", VStr "Nouveau")]) "status");
    [reflexivity | discriminate].
Defined.

(** ** Creating and reading back a request *)

Lemma find_one_print (n : string) (filt : dict) (x : notification) (w : world) :
  find_one n filt (print x w) = find_one n filt w.
Proof. reflexivity. Qed.



(** X4: [create_request] never fails; it adds exactly one document to the
    request collection, leaves every other collection as it was, reads the
    clock once and sends exactly one notification, which carries the name and
    the email of the payload. *)
Theorem create_request_effects `{Runtime} (payload : Request.t) (w : world) :
  let w' := snd (create_request payload w) in
  (exists rid, fst (create_request payload w) = Ok [("id", VStr rid)]) /\
  List.length (collection "request" w')
  = S (List.length (collection "request" w)) /\
  (forall n, n <> "request" -> collection n w' = collection n w) /\
  ticks w' = S (ticks w) /\
  next_oid w' = N.succ (next_oid w) /\
  stdout w'
  = (stdout w ++ [NewLead (VStr (Request.name payload))
                          (VStr (Request.email payload))])%list.
Proof.
  destruct (create_request_stores_payload payload w) as [Hr Hc].
  cbv zeta. split; [eexists; exact Hr|].
  split; [rewrite Hc, length_app; simpl; lia|].
  split; [|repeat split].
  intros n Hn. unfold create_request, create_document. simpl.
  rewrite collection_print.
  apply (collection_insert_other n "request" _ (snd (now w)) Hn).
Qed.

(** ** What a status update changes *)

Lemma update_one_unmatched (n : string) (filt upd : dict) (w : world) :
  fst (update_one n filt upd w) = 0 -> snd (update_one n filt upd w) = w.
Proof.
  unfold update_one.
  destruct (update_first filt upd (collection n w)) as [k r]. simpl.
  now intros ->.
Qed.

Lemma matches_id_apply_set (o : oid) (upd : dict) (d : document) :
  matches [("_id", VOid o)] (apply_set upd d) = matches [("_id", VOid o)] d.
Proof. now rewrite !matches_id. Qed.

Lemma update_first_by_id (o o' : oid) (upd : dict) (docs : list document) :
  filter (matches [("_id", VOid o')])
         (snd (update_first [("_id", VOid o)] upd docs))
  = if N.eqb o o'
    then match filter (matches [("_id", VOid o)]) docs with
         | d :: rest => apply_set upd d :: rest
         | [] => []
         end
    else filter (matches [("_id", VOid o')]) docs.
Proof.
  induction docs as [|d docs IH]; cbn [update_first filter snd].
  - now destruct (N.eqb o o').
  - destruct (matches [("_id", VOid o)] d) eqn:Hm; cbn [snd filter].
    + rewrite matches_id_apply_set, !matches_id.
      rewrite matches_id in Hm. apply N.eqb_eq in Hm. rewrite Hm.
      now destruct (N.eqb_spec o o') as [<-|Hne].
    + destruct (update_first [("_id", VOid o)] upd docs) as [k r].
      cbn [snd filter] in *. rewrite IH.
      destruct (N.eqb_spec o o') as [<-|Hne]; [now rewrite Hm|].
      reflexivity.
Qed.

Lemma find_one_after_update (o o' : oid) (upd : dict) (w : world) :
  find_one "request" [("_id", VOid o')]
           (snd (update_one "request" [("_id", VOid o)] upd w))
  = if N.eqb o o'
    then option_map (apply_set upd) (find_one "request" [("_id", VOid o)] w)
    else find_one "request" [("_id", VOid o')] w.
Proof.
  unfold find_one, find, update_one.
  pose proof (update_first_by_id o o' upd (collection "request" w)) as Hu.
  pose proof (update_first_count [("_id", VOid o)] upd (collection "request" w))
    as Hc.
  destruct (update_first [("_id", VOid o)] upd (collection "request" w))
    as [k r]. cbn [fst snd] in *.
  destruct (Nat.eqb_spec k 0) as [->|Hk].
  - destruct (filter (matches [("_id", VOid o)]) (collection "request" w))
      eqn:Hf; [|discriminate].
    destruct (N.eqb_spec o o') as [<-|_]; [now rewrite Hf | reflexivity].
  - unfold set_collection, collection at 1. cbn [db].
    rewrite coll_lookup_update_same, Hu.
    destruct (N.eqb o o'); [|reflexivity].
    now destruct (filter (matches [("_id", VOid o)]) (collection "request" w)).
Qed.

Lemma lookup_apply_status_update (st : string) (t : datetime) (d : document)
  (k : string) :
  lookup k (fields (apply_set (status_update st t) d))
  = if String.eqb k "updated_at" then Some (VDate t)
    else if String.eqb k "status" then Some (VStr st)
    else lookup k (fields d).
Proof.
  unfold apply_set, status_update. cbn [fields fold_left fst snd].
  destruct (String.eqb_spec k "updated_at") as [->|Hu];
    [apply lookup_set_same|].
  rewrite lookup_set_other by exact Hu.
  destruct (String.eqb_spec k "status") as [->|Hs]; [apply lookup_set_same|].
  now apply lookup_set_other.
Qed.

(** [update_status], with its intermediate worlds named. *)
Lemma update_status_unfold `{Runtime} (req_id : string)
  (payload : StatusUpdate.t) (w : world) :
  update_status req_id payload w
  = let st := StatusUpdate.status payload in
    if negb (existsb (String.eqb st) statuses) then
      (Raise (HTTPException 400 "Statut invalide"), w)
    else
      match ObjectId req_id with
      | Raise e => (Raise e, w)
      | Ok o =>
          let u := update_one "request" [("_id", VOid o)]
                              (status_update st (clock (ticks w)))
                              (snd (now w)) in
          if (fst u =? 0)%nat then
            (Raise (HTTPException 404 "Demande introuvable"), snd u)
          else
            let w4 := snd (insert_one "request_log"
                             (log_entry o st (clock (ticks (snd u))))
                             (snd (now (snd u)))) in
            (Ok [("ok", VBool true)],
             if String.eqb st "Confirmé" then
               match find_one "request" [("_id", VOid o)] w4 with
               | Some doc => print (Confirmation (doc_get doc "email" VNone)) w4
               | None => w4
               end
             else w4)
      end.
Proof.
  unfold update_status. cbv zeta.
  destruct (negb (existsb _ statuses)); [reflexivity|].
  destruct (ObjectId req_id) as [o|e]; [|reflexivity].
  unfold status_update, log_entry. simpl.
  now destruct (update_one "request" _ _ _) as [k w2].
Qed.

Lemma stdout_update_one (n : string) (filt upd : dict) (w : world) :
  stdout (snd (update_one n filt upd w)) = stdout w.
Proof.
  unfold update_one.
  destruct (update_first filt upd (collection n w)) as [k r]; simpl.
  now destruct (k =? 0)%nat.
Qed.

(** The world that a successful [update_status] leaves. *)
Lemma update_status_success `{Runtime} (req_id : string)
  (payload : StatusUpdate.t) (w w' : world) (r : dict) :
  update_status req_id payload w = (Ok r, w') ->
  exists (o : oid) (before : document),
    ObjectId req_id = Ok o /\
    find_one "request" [("_id", VOid o)] w = Some before /\
    (forall o', find_one "request" [("_id", VOid o')] w'
                = if N.eqb o o'
                  then Some (apply_set
                               (status_update (StatusUpdate.status payload)
                                              (clock (ticks w))) before)
                  else find_one "request" [("_id", VOid o')] w) /\
    stdout w'
    = (stdout w
       ++ if String.eqb (StatusUpdate.status payload) "Confirmé"
          then [Confirmation (doc_get before "email" VNone)] else [])%list.
Proof.
  rewrite update_status_unfold. cbv zeta.
  destruct (negb (existsb _ statuses)); [discriminate|].
  destruct (ObjectId req_id) as [o|e]; [|discriminate].
  set (st := StatusUpdate.status payload).
  set (upd := status_update st (clock (ticks w))).
  set (u := update_one "request" [("_id", VOid o)] upd (snd (now w))).
  pose proof (update_one_count "request" [("_id", VOid o)] upd (snd (now w)))
    as Hc.
  pose proof (fun o' => find_one_after_update o o' upd (snd (now w))) as Hfind.
  pose proof (stdout_update_one "request" [("_id", VOid o)] upd (snd (now w)))
    as Hout.
  fold u in Hc, Hfind, Hout. rewrite find_one_now in Hc.
  assert (Hfind' : forall o', find_one "request" [("_id", VOid o')] (snd u)
                   = if N.eqb o o'
                     then option_map (apply_set upd)
                            (find_one "request" [("_id", VOid o)] w)
                     else find_one "request" [("_id", VOid o')] w)
    by exact Hfind.
  clear Hfind. change (stdout (snd (now w))) with (stdout w) in Hout.
  destruct (find_one "request" [("_id", VOid o)] w) as [before|] eqn:Hb;
    rewrite Hc; [|discriminate].
  cbn [Nat.eqb]. intros Hres.
  exists o, before. split; [reflexivity|]. split; [exact Hb|].
  set (w4 := snd (insert_one "request_log"
                    (log_entry o st (clock (ticks (snd u))))
                    (snd (now (snd u))))) in *.
  assert (Hw4 : forall o', find_one "request" [("_id", VOid o')] w4
                           = find_one "request" [("_id", VOid o')] (snd u)).
  { intros o'. unfold find_one, find, w4.
    now rewrite collection_insert_other by discriminate. }
  assert (Hout4 : stdout w4 = stdout w) by exact Hout.
  destruct (String.eqb st "Confirmé").
  - rewrite (Hw4 o), (Hfind' o), N.eqb_refl in Hres. simpl in Hres.
    injection Hres as _ <-. split.
    + intros o'. rewrite find_one_print, Hw4, Hfind'.
      destruct (N.eqb o o'); reflexivity.
    + unfold print. cbn [stdout]. rewrite Hout4. do 3 f_equal.
      unfold doc_get, doc_lookup. cbn [String.eqb Ascii.eqb Bool.eqb].
      unfold upd. now rewrite lookup_apply_status_update.
  - injection Hres as _ <-. split.
    + intros o'. rewrite Hw4, Hfind'. destruct (N.eqb o o'); reflexivity.
    + rewrite Hout4. now rewrite app_nil_r.
Qed.

(** X5: a call to [update_status] that fails writes nothing: the collections,
    the identifier counter and the notification sink are the ones of before
    the call, so no history entry was appended and no request was changed. *)
Theorem update_status_failure_writes_nothing `{Runtime} (req_id : string)
  (payload : StatusUpdate.t) (w w' : world) (e : exn) :
  update_status req_id payload w = (Raise e, w') ->
  db w' = db w /\ next_oid w' = next_oid w /\ stdout w' = stdout w.
Proof.
  rewrite update_status_unfold. cbv zeta.
  destruct (negb (existsb _ statuses)); [now intros [= _ <-]|].
  destruct (ObjectId req_id) as [o|e0]; [|now intros [= _ <-]].
  destruct (Nat.eqb_spec
              (fst (update_one "request" [("_id", VOid o)]
                      (status_update (StatusUpdate.status payload)
                                     (clock (ticks w))) (snd (now w)))) 0)
    as [Hz|Hnz]; [|discriminate].
  pose proof (update_one_unmatched _ _ _ _ Hz) as Hw.
  intros Hres. apply (f_equal snd) in Hres. cbn [snd] in Hres.
  rewrite Hw in Hres. now subst w'.
Qed.

Lemma update_status_failure_writes_nothing_witness :
  db (snd (@update_status demo_runtime "000000000000000000000009"
             (StatusUpdate.mk "Confirmé") one_request_world))
  = db one_request_world.
Proof.
  apply (@update_status_failure_writes_nothing demo_runtime
           "000000000000000000000009" (StatusUpdate.mk "Confirmé")
           one_request_world _ (HTTPException 404 "Demande introuvable")).
  reflexivity.
Defined.



(** X7: a successful [update_status] sends the confirmation notification
    exactly when the new status is "Confirmé", once, with the email stored in
    the request; for the two other statuses it sends nothing. *)
Theorem update_status_notifies_confirmation_only `{Runtime} (req_id : string)
  (payload : StatusUpdate.t) (w w' : world) (r : dict) :
  update_status req_id payload w = (Ok r, w') ->
  exists (o : oid) (request : document),
    ObjectId req_id = Ok o /\
    find_one "request" [("_id", VOid o)] w = Some request /\
    stdout w'
    = (stdout w
       ++ if String.eqb (StatusUpdate.status payload) "Confirmé"
          then [Confirmation (doc_get request "email" VNone)] else [])%list.
Proof.
  intros Hu.
  destruct (update_status_success _ _ _ _ _ Hu) as (o & d & Ho & Hd & _ & Hs).
  now exists o, d.
Qed.

Lemma update_status_notifies_confirmation_only_witness :
  stdout (snd (@update_status demo_runtime "000000000000000000000000"
                 (StatusUpdate.mk "Confirmé") one_request_world))
  = [NewLead (VStr "Tom") (VStr "tom@x.com"); Confirmation (VStr "tom@x.com")]
  /\
  stdout (snd (@update_status demo_runtime "000000000000000000000000"
                 (StatusUpdate.mk "Annulé") one_request_world))
  = [NewLead (VStr "Tom") (VStr "tom@x.com")].
Proof.
  split.
  - destruct (@update_status_notifies_confirmation_only demo_runtime
                "000000000000000000000000" (StatusUpdate.mk "Confirmé")
                one_request_world _ [("ok", VBool true)] eq_refl)
      as (o & d & Ho & Hd & Hs).
    reflexivity.
  - reflexivity.
Defined.

(** ** Login *)

(** X8: [login] succeeds exactly when the first user document found for the
    email holds that very password as a string; a user stored without a
    password can never log in.  On success the answer carries the constant
    token and the stored name and email, and nothing else. *)
Theorem login_succeeds_iff (payload : LoginPayload.t) (w : world) (r : dict) :
  login payload w = Ok r <->
  exists user,
    find_one "user" [("email", VStr (LoginPayload.email payload))] w
    = Some user /\
    doc_get user "password" VNone = VStr (LoginPayload.password payload) /\
    r = [ ("token", VStr "demo-token");
          ("user", VDict [ ("name", doc_get user "name" VNone);
                           ("email", doc_get user "email" VNone) ]) ].
Proof.
  unfold login.
  destruct (find_one "user" _ w) as [user|]; split.
  - destruct (value_eqb _ _) eqn:E; simpl; [|discriminate].
    intros [= <-]. exists user. apply value_eqb_str in E. now repeat split.
  - intros (u & [= <-] & Hp & ->).
    apply value_eqb_str in Hp. now rewrite Hp.
  - discriminate.
  - now intros (u & Hu & _).
Qed.

(** ** The assistant and the store *)

(** X9: when the name, the email or the phone of the message is absent or
    empty, the assistant writes nothing: the world after the call is the world
    before it, and the answer, when there is one, has [created_request_id]
    at [None]. *)
Theorem assistant_without_contact_writes_nothing `{Runtime}
  (msg : ChatMessage.t) (w : world) :
  provided (ChatMessage.name msg) && provided (ChatMessage.email msg)
  && provided (ChatMessage.phone msg) = false ->
  snd (assistant msg w) = w /\
  forall r, fst (assistant msg w) = Ok r ->
            lookup "created_request_id" r = Some VNone.
Proof.
  intros Hc. unfold assistant.
  destruct (select_reply _ _) as [reply|e]; [|split; [reflexivity|discriminate]].
  destruct (ChatMessage.name msg) as [n|],
           (ChatMessage.email msg) as [e|],
           (ChatMessage.phone msg) as [p|];
    try (split; [reflexivity | now intros r [= <-]]).
  rewrite Hc. split; [reflexivity | now intros r [= <-]].
Qed.

Lemma assistant_without_contact_writes_nothing_witness :
  snd (@assistant demo_runtime
         (ChatMessage.mk "bonjour" (Some "Tom") (Some "tom@x.com") (Some "") None)
         one_request_world)
  = one_request_world.
Proof.
  apply (@assistant_without_contact_writes_nothing demo_runtime
           (ChatMessage.mk "bonjour" (Some "Tom") (Some "tom@x.com") (Some "")
                           None) one_request_world).
  reflexivity.
Defined.

(** X10: an assistant call that raises creates no lead either, even with full
    contact details: the world is unchanged. *)
Theorem assistant_failure_writes_nothing `{Runtime} (msg : ChatMessage.t)
  (w w' : world) (e : exn) :
  assistant msg w = (Raise e, w') -> w' = w.
Proof.
  unfold assistant.
  destruct (select_reply _ _) as [reply|e0]; [|now intros [= _ <-]].
  destruct (ChatMessage.name msg) as [n|]; [|discriminate].
  destruct (ChatMessage.email msg) as [m|]; [|discriminate].
  destruct (ChatMessage.phone msg) as [p|]; [|discriminate].
  destruct (_ && _); [|discriminate].
  now destruct (create_document "request" _ w).
Qed.

Lemma assistant_failure_writes_nothing_witness :
  @assistant demo_runtime tom_message profile_without_faq_world
  = (Raise TypeError, profile_without_faq_world).
Proof.
  exact (f_equal (fun x => (@Raise dict TypeError, x))
           (@assistant_failure_writes_nothing demo_runtime tom_message
              profile_without_faq_world
              (snd (@assistant demo_runtime tom_message
                      profile_without_faq_world))
              TypeError eq_refl)).
Defined.

(** ** Generated content *)

(** X11: [generate_service_descriptions] gives one description per service
    name, in the order of the names, each titled with its name as given. *)
Theorem generate_service_descriptions_titles `{Runtime} (services : list string) :
  List.length (generate_service_descriptions services) = List.length services /\
  map (fun d => lookup "title" d) (generate_service_descriptions services)
  = map (fun s => Some (VStr s)) services /\
  titles_of (map VDict (generate_service_descriptions services))
  = Ok (map VStr services).
Proof.
  unfold generate_service_descriptions.
  split; [apply length_map|]. split; [now rewrite map_map|].
  induction services as [|s services IH]; [reflexivity|].
  cbn [map titles_of]. rewrite IH. reflexivity.
Qed.

Lemma get_content_after_onboarding `{Runtime} (payload : OnboardingPayload.t)
  (w : world) :
  fresh_ids "business" w ->
  get_content (snd (onboarding payload w)) = content_of payload.
Proof.
  intros Hf. unfold get_content, onboarding.
  match goal with
  | |- context [create_document "business" ?data w] =>
      pose proof (find_one_latest_created "business" data w Hf) as Hl;
      destruct (create_document "business" data w) as [bid w1]
  end.
  simpl in Hl. simpl snd. rewrite Hl. reflexivity.
Qed.

(** X12: whatever the payload, the content that [get_content] serves right
    after [onboarding] is the content that [onboarding] returned (intro, FAQ
    and service descriptions), together with the hours, the location, the
    trade and the owner name of the payload; the greeting lines that
    [onboarding] returned and stored are not part of it. *)
Theorem onboarding_then_get_content `{Runtime} (payload : OnboardingPayload.t)
  (w : world) :
  fresh_ids "business" w ->
  let content := get_content (snd (onboarding payload w)) in
  exists r,
    fst (onboarding payload w) = Ok r /\
    lookup "intro" content = lookup "intro" r /\
    lookup "faq" content = lookup "faq" r /\
    lookup "services" content = lookup "services" r /\
    lookup "horaires" content
    = Some (VStr (OnboardingPayload.horaires payload)) /\
    lookup "localisation" content
    = Some (VStr (OnboardingPayload.localisation payload)) /\
    lookup "metier" content = Some (VStr (OnboardingPayload.metier payload)) /\
    lookup "owner" content = Some (VStr (OnboardingPayload.nom payload)) /\
    lookup "assistant" content = None /\
    lookup "assistant" r
    = Some (VList (map VStr (generate_assistant_responses
                               (OnboardingPayload.metier payload)))).
Proof.
  intros Hf content. subst content. rewrite (get_content_after_onboarding _ _ Hf).
  unfold onboarding.
  destruct (create_document "business" _ w) as [bid w1].
  eexists. split; [reflexivity|]. repeat split.
Qed.

Lemma onboarding_then_get_content_witness :
  lookup "horaires"
    (@get_content demo_runtime (snd (@onboarding demo_runtime claire empty_world)))
  = Some (VStr "Lun-Ven 9h-18h").
Proof.
  destruct (@onboarding_then_get_content demo_runtime claire empty_world)
    as (r & _ & _ & _ & _ & Hh & _); [constructor|].
  exact Hh.
Defined.

(** X13: the content that [get_content] serves never has an [assistant] key,
    with or without a stored profile; so whenever the reply selection reaches
    its last step, the greeting is the literal default, and the greeting
    lines stored with a profile are never used. *)
Theorem greeting_is_always_the_default `{Runtime} (w : world) (reply : value) :
  lookup "assistant" (get_content w) = None /\
  greeting (get_content w) reply
  = Ok (if truthy reply then reply else VStr default_greeting).
Proof.
  assert (Ha : lookup "assistant" (get_content w) = None).
  { unfold get_content. now destruct (find_one_latest "business" w). }
  split; [exact Ha|].
  unfold greeting, get. rewrite Ha. now destruct (truthy reply).
Qed.

(** ** Replies on generated content *)

Lemma titles_of_generated `{Runtime} (services : list string) :
  titles_of (map VDict (generate_service_descriptions services))
  = Ok (map VStr services).
Proof.
  unfold generate_service_descriptions.
  induction services as [|s services IH]; [reflexivity|].
  cbn [map titles_of]. rewrite IH. reflexivity.
Qed.

Lemma strings_of_strings (ss : list string) : strings_of (map VStr ss) = Ok ss.
Proof.
  induction ss as [|s ss IH]; simpl; [reflexivity|]. now rewrite IH.
Qed.

Lemma append_not_empty (a b : string) : b <> "" -> String.eqb (a ++ b) "" = false.
Proof.
  intros Hb. apply String.eqb_neq. destruct a; simpl; [exact Hb | discriminate].
Qed.

(** X14: on a content whose FAQ list has at least one entry, a message with a
    price keyword and no hours keyword gets the fixed price reply, whatever
    the FAQ entries, the services and the rest of the message are. *)
Theorem price_keyword_gets_the_fixed_reply `{Runtime} (content : dict)
  (text : string) (item : value) (items : list value) :
  py_iter (faq_of content) = Ok (item :: items) ->
  any_in hours_keywords text = false ->
  any_in price_keywords text = true ->
  select_reply content text = Ok (VStr price_reply).
Proof.
  intros Hi Hh Hp. unfold select_reply, faq_lookup. rewrite Hi.
  cbn [bind faq_loop]. now rewrite Hh, Hp.
Qed.

Lemma price_keyword_gets_the_fixed_reply_witness :
  @select_reply demo_runtime prices_only_content "quel tarif pour une coupe ?"
  = Ok (VStr price_reply).
Proof.
  apply (@price_keyword_gets_the_fixed_reply demo_runtime prices_only_content
           "quel tarif pour une coupe ?"
           (VDict [("q", VStr "Quels sont les tarifs ?");
                   ("a", VStr "Sur devis.")]) []);
    reflexivity.
Defined.

(** X15: right after [onboarding], a message with an hours keyword is answered
    with the hours of the payload followed by the fixed invitation, provided
    lower-casing the generated hours question keeps the word "horaire" in
    it. *)
Theorem hours_question_after_onboarding `{Runtime}
  (payload : OnboardingPayload.t) (w : world) (text : string) :
  fresh_ids "business" w ->
  contains "horaire" (lower "Quels sont vos horaires ?") = true ->
  any_in hours_keywords text = true ->
  select_reply (get_content (snd (onboarding payload w))) text
  = Ok (VStr (hours_faq_answer (OnboardingPayload.horaires payload))).
Proof.
  intros Hf Hl Hh. rewrite (get_content_after_onboarding _ _ Hf).
  unfold select_reply, faq_lookup, content_of, faq_of, get.
  cbn [lookup String.eqb Ascii.eqb Bool.eqb py_iter bind map generate_faq
       faq_loop].
  rewrite Hh. unfold hours_answer, faq_of, get.
  cbn [lookup String.eqb Ascii.eqb Bool.eqb py_iter bind map generate_faq
       next_hours getitem dot_lower].
  rewrite Hl. cbn [bind].
  unfold service_suggestion, greeting. cbn [truthy].
  fold (hours_faq_answer (OnboardingPayload.horaires payload)).
  unfold hours_faq_answer.
  do 2 (rewrite append_not_empty by discriminate; cbn [negb bind truthy]).
  reflexivity.
Qed.

Lemma hours_question_after_onboarding_witness :
  @select_reply demo_runtime
    (@get_content demo_runtime (snd (@onboarding demo_runtime claire empty_world)))
    "quels sont vos horaires?"
  = Ok (VStr "Lun-Ven 9h-18h. N'hésitez pas à nous écrire pour un créneau spécifique.").
Proof.
  apply (@hours_question_after_onboarding demo_runtime claire empty_world
           "quels sont vos horaires?"); [constructor | reflexivity | reflexivity].
Defined.

(** X16: right after [onboarding], a message with none of the hours, price and
    place keywords is answered, when it has a service keyword, with the
    service names of the payload, in order and separated by commas, and
    otherwise with the default greeting. *)
Theorem service_question_after_onboarding `{Runtime}
  (payload : OnboardingPayload.t) (w : world) (text : string) :
  fresh_ids "business" w ->
  any_in hours_keywords text = false ->
  any_in price_keywords text = false ->
  any_in place_keywords text = false ->
  select_reply (get_content (snd (onboarding payload w))) text
  = Ok (VStr (if contains "service" text || contains "choisir" text
                 || contains "conseil" text
              then "Voici nos services: "
                   ++ join ", " (OnboardingPayload.services payload)
                   ++ ". Quel vous intéresse ?"
              else default_greeting)).
Proof.
  intros Hf Hh Hp Hl. rewrite (get_content_after_onboarding _ _ Hf).
  unfold select_reply, faq_lookup, content_of, faq_of, get.
  cbn [lookup String.eqb Ascii.eqb Bool.eqb py_iter bind map generate_faq
       faq_loop].
  rewrite Hh, Hp, Hl. cbn [bind].
  unfold service_suggestion, get.
  cbn [lookup String.eqb Ascii.eqb Bool.eqb py_iter bind truthy negb].
  rewrite titles_of_generated. cbn [bind].
  destruct (contains "service" text || contains "choisir" text
            || contains "conseil" text).
  - unfold join_values. rewrite strings_of_strings. cbn [bind].
    reflexivity.
  - reflexivity.
Qed.

Lemma service_question_after_onboarding_witness :
  @select_reply demo_runtime
    (@get_content demo_runtime (snd (@onboarding demo_runtime claire empty_world)))
    "un conseil ?"
  = Ok (VStr "Voici nos services: Coupe, Couleur. Quel vous intéresse ?").
Proof.
  apply (@service_question_after_onboarding demo_runtime claire empty_world
           "un conseil ?"); [constructor | reflexivity ..].
Defined.

(** ** More on the order of listed requests *)

Lemma string_leb_not_ltb (a b : string) :
  String.leb b a = true -> String.ltb a b = false.
Proof.
  unfold String.ltb, String.leb. rewrite (String.compare_antisym b a).
  now destruct (String.compare a b).
Qed.

Lemma sort_desc_of_sorted (key : dict -> value) (text : dict -> string)
  (l : list dict) :
  Forall (fun x => key x = VStr (text x)) l ->
  StronglySorted (fun a b => String.leb (text b) (text a) = true) l ->
  sort_desc key l = Ok l.
Proof.
  induction 1 as [|x l Hx Hl IH]; intros Hs; [reflexivity|].
  inversion Hs as [|? ? Hs' Hall]; subst.
  cbn [sort_desc]. rewrite (IH Hs'). cbn [bind].
  destruct l as [|y l']; [reflexivity|].
  inversion Hl as [|? ? Hy _]; subst. inversion Hall as [|? ? Hxy _]; subst.
  cbn [insert_desc]. rewrite Hx, Hy. cbn [py_lt bind].
  now rewrite (string_leb_not_ltb _ _ Hxy).
Qed.

Lemma sorted_map_to_public (docs : list document) :
  Forall timestamp_ok docs ->
  StronglySorted stored_newest_first docs ->
  StronglySorted newest_first (map to_public docs).
Proof.
  induction 1 as [|d docs Hd Hdocs IH]; intros Hs; [constructor|].
  inversion Hs as [|? ? Hs' Hall]; subst. cbn [map].
  constructor; [now apply IH|].
  apply Forall_map. rewrite Forall_forall in Hall, Hdocs |- *.
  intros d' Hin. unfold newest_first.
  destruct (created_at_key_public d Hd) as [_ ->].
  destruct (created_at_key_public d' (Hdocs d' Hin)) as [_ ->].
  now apply Hall.
Qed.

(** X17: when the retained requests already stand most recent first in the
    store, [list_requests] returns them in store order; in particular
    requests with equal creation texts keep the order of the store. *)
Theorem list_requests_keeps_a_sorted_store_order (status : option string)
  (w : world) :
  Forall timestamp_ok (collection "request" w) ->
  StronglySorted stored_newest_first
                 (retained status (collection "request" w)) ->
  list_requests status w
  = Ok (map to_public (retained status (collection "request" w))).
Proof.
  intros Hok Hs. unfold list_requests. rewrite get_documents_retained.
  assert (Hdocs : Forall timestamp_ok (retained status (collection "request" w))).
  { rewrite Forall_forall in Hok |- *. intros d Hd.
    apply Hok. now apply (retained_incl status _ d). }
  apply (sort_desc_of_sorted created_at_key created_text).
  - apply Forall_map. eapply Forall_impl; [|exact Hdocs].
    intros d Hd. destruct (created_at_key_public d Hd) as [Hk Ht].
    now rewrite Hk, Ht.
  - now apply sorted_map_to_public.
Qed.

Lemma list_requests_keeps_a_sorted_store_order_witness :
  exists a b,
    list_requests None same_instant_world = Ok [a; b] /\
    lookup "name" a = Some (VStr "Ana") /\ lookup "name" b = Some (VStr "Bob").
Proof.
  assert (Hl : list_requests None same_instant_world
               = Ok (map to_public (collection "request" same_instant_world))).
  { apply (list_requests_keeps_a_sorted_store_order None same_instant_world).
    - repeat constructor.
    - repeat constructor. }
  do 2 eexists. split; [exact Hl|]. split; reflexivity.
Defined.

(** ** When listing fails *)

Section KeyKinds.

Variable key : dict -> value.

Let kind (x : dict) : Prop := key x = VNone \/ exists s, key x = VStr s.

Lemma py_lt_kinds (x y : dict) :
  kind x -> kind y ->
  (key x = VNone \/ key y = VNone -> py_lt (key x) (key y) = Raise TypeError) /\
  (forall e, py_lt (key x) (key y) = Raise e -> e = TypeError).
Proof.
  intros [Hx|[sx Hx]] [Hy|[sy Hy]]; rewrite Hx, Hy; simpl; split;
    try reflexivity; try (intros e [= <-]; reflexivity);
    try discriminate.
  intros [|]; discriminate.
Qed.

Lemma insert_desc_raises (x : dict) (l : list dict) (e : exn) :
  kind x -> Forall kind l ->
  insert_desc key x l = Raise e -> e = TypeError.
Proof.
  intros Hx Hl. induction Hl as [|y l Hy Hl IH]; simpl; [discriminate|].
  destruct (py_lt (key x) (key y)) as [b|e0] eqn:E; simpl.
  - destruct b; [|discriminate].
    destruct (insert_desc key x l); simpl; [discriminate|].
    intros [= <-]. now apply IH.
  - intros [= <-]. now apply (py_lt_kinds x y Hx Hy).
Qed.

Lemma insert_desc_permutation (x : dict) (l r : list dict) :
  insert_desc key x l = Ok r -> Permutation (x :: l) r.
Proof.
  revert r. induction l as [|y l IH]; simpl; intros r.
  - now intros [= <-].
  - destruct (py_lt (key x) (key y)) as [b|]; simpl; [|discriminate].
    destruct b; [|now intros [= <-]].
    destruct (insert_desc key x l) as [r'|]; simpl; [|discriminate].
    intros [= <-]. rewrite perm_swap. constructor. now apply IH.
Qed.

Lemma sort_desc_permutation (l r : list dict) :
  sort_desc key l = Ok r -> Permutation l r.
Proof.
  revert r. induction l as [|x l IH]; simpl; intros r.
  - now intros [= <-].
  - destruct (sort_desc key l) as [r'|]; simpl; [|discriminate].
    intros Hi. apply insert_desc_permutation in Hi.
    now rewrite <- Hi, <- (IH r' eq_refl).
Qed.

Lemma sort_desc_raises (l : list dict) (e : exn) :
  Forall kind l -> sort_desc key l = Raise e -> e = TypeError.
Proof.
  induction 1 as [|x l Hx Hl IH]; simpl; [discriminate|].
  destruct (sort_desc key l) as [r|e0] eqn:Hs; simpl.
  - apply insert_desc_raises; [exact Hx|].
    apply (Permutation_Forall (sort_desc_permutation _ _ Hs) Hl).
  - intros [= <-]. now apply IH.
Qed.

Lemma sort_desc_with_none (l : list dict) :
  Forall kind l ->
  Exists (fun x => key x = VNone) l ->
  2 <= List.length l ->
  sort_desc key l = Raise TypeError.
Proof.
  induction 1 as [|x l Hx Hl IH]; intros Hex Hlen; [inversion Hex|].
  cbn [sort_desc].
  destruct (sort_desc key l) as [r|e] eqn:Hs; cbn [bind].
  - pose proof (sort_desc_permutation _ _ Hs) as Hperm.
    assert (Hr : Forall kind r) by apply (Permutation_Forall Hperm Hl).
    destruct r as [|y r'].
    { apply Permutation_length in Hperm. simpl in *. lia. }
    cbn [insert_desc].
    assert (Hy : kind y) by now inversion Hr.
    destruct (Exists_dec (fun x => key x = VNone) l) as [Hin|Hnot].
    { intros z. destruct (key z); (now left) || (right; discriminate). }
    + destruct l as [|a [|b l'']].
      * inversion Hin.
      * apply Permutation_length_1_inv in Hperm. injection Hperm as -> ->.
        inversion Hin as [? ? Ha|? ? Ha]; [|inversion Ha]; subst.
        now rewrite (proj1 (py_lt_kinds x a Hx Hy) (or_intror Ha)).
      * assert (Hraise : @Ok (list dict) (y :: r') = Raise TypeError)
          by (apply IH; [exact Hin | simpl; lia]).
        discriminate Hraise.
    + inversion Hex as [? ? Hxn|? ? Hin]; subst; [|contradiction].
      now rewrite (proj1 (py_lt_kinds x y Hx Hy) (or_introl Hxn)).
  - f_equal. now apply (sort_desc_raises l e Hl).
Qed.

End KeyKinds.

Lemma created_at_key_known (d : document) :
  timestamp_known d ->
  (created_at_key (to_public d) = VNone
   \/ exists s, created_at_key (to_public d) = VStr s) /\
  (lookup "created_at" (fields d) = Some VNone ->
   created_at_key (to_public d) = VNone).
Proof.
  unfold timestamp_known, created_at_key, get.
  rewrite lookup_to_public by discriminate.
  destruct (lookup "created_at" (fields d)) as [[]|]; simpl;
    intros Hk; try contradiction; split; eauto; discriminate.
Qed.

(** X18: as soon as two or more requests are retained and one of them has a
    creation timestamp that is [None], [list_requests] returns no list at
    all: the sort raises [TypeError]. *)
Theorem list_requests_raises_on_a_null_timestamp (status : option string)
  (w : world) :
  Forall timestamp_known (collection "request" w) ->
  Exists (fun d => lookup "created_at" (fields d) = Some VNone)
         (retained status (collection "request" w)) ->
  2 <= List.length (retained status (collection "request" w)) ->
  list_requests status w = Raise TypeError.
Proof.
  intros Hk Hex Hlen. unfold list_requests. rewrite get_documents_retained.
  set (docs := retained status (collection "request" w)) in *.
  assert (Hdocs : Forall timestamp_known docs).
  { rewrite Forall_forall in Hk |- *. intros d Hd.
    apply Hk. now apply (retained_incl status _ d). }
  apply sort_desc_with_none.
  - apply Forall_map. eapply Forall_impl; [|exact Hdocs].
    intros d Hd. now apply created_at_key_known.
  - apply Exists_exists in Hex as (d & Hin & Hnone).
    apply Exists_exists. exists (to_public d). split; [now apply in_map|].
    rewrite Forall_forall in Hdocs.
    now apply (created_at_key_known d (Hdocs d Hin)).
  - now rewrite length_map.
Qed.

Lemma list_requests_raises_on_a_null_timestamp_witness :
  list_requests (Some "Nouveau") two_leads_world = Raise TypeError.
Proof.
  apply (list_requests_raises_on_a_null_timestamp (Some "Nouveau")
           two_leads_world).
  - repeat constructor.
  - apply Exists_cons_hd. reflexivity.
  - apply le_n.
Defined.

(** X19: with no or one retained request nothing is compared, so
    [list_requests] succeeds whatever the creation timestamp is, [None]
    included. *)
Theorem list_requests_of_at_most_one_request (status : option string)
  (w : world) :
  List.length (retained status (collection "request" w)) <= 1 ->
  list_requests status w
  = Ok (map to_public (retained status (collection "request" w))).
Proof.
  intros Hlen. unfold list_requests. rewrite get_documents_retained.
  destruct (retained status (collection "request" w)) as [|d [|d' l]];
    [reflexivity | reflexivity | simpl in Hlen; lia].
Qed.

Lemma list_requests_of_at_most_one_request_witness :
  exists x, list_requests None one_lead_world = Ok [x]
            /\ lookup "created_at" x = Some VNone.
Proof.
  eexists. split.
  - apply (list_requests_of_at_most_one_request None one_lead_world).
    apply le_n.
  - reflexivity.
Defined.

(** ** From a listed request back to the request *)

Lemma find_by_id_unique (docs : list document) (d : document) :
  NoDup (map _id docs) -> In d docs ->
  hd_error (filter (matches [("_id", VOid (_id d))]) docs) = Some d.
Proof.
  induction docs as [|x docs IH]; intros Hnd Hin; [contradiction|].
  inversion Hnd as [|? ? Hx Hnd']; subst. cbn [filter]. rewrite matches_id.
  destruct (N.eqb_spec (_id x) (_id d)) as [Heq|Hne].
  - destruct Hin as [->|Hin]; [reflexivity|].
    exfalso. apply Hx. rewrite Heq. now apply in_map.
  - destruct Hin as [->|Hin]; [contradiction|]. now apply IH.
Qed.

(** X20: in a store whose request identifiers are distinct and fit on 24
    hexadecimal digits, each record that [list_requests] returns carries an
    [id] on which [get_request] returns that same record. *)
Theorem listed_requests_can_be_fetched (status : option string) (w : world)
  (res : list dict) (x : dict) :
  NoDup (map _id (collection "request" w)) ->
  Forall (fun d => (_id d < 16 ^ 24)%N) (collection "request" w) ->
  list_requests status w = Ok res ->
  In x res ->
  exists id, lookup "id" x = Some (VStr id) /\ get_request id w = Ok x.
Proof.
  intros Hnd Hlt Hres Hx. unfold list_requests in Hres.
  rewrite get_documents_retained in Hres.
  apply sort_desc_permutation in Hres.
  apply (Permutation_in _ (Permutation_sym Hres)) in Hx.
  apply in_map_iff in Hx as (d & <- & Hd).
  apply retained_incl in Hd.
  exists (oid_str (_id d)). split; [apply lookup_to_public_id|].
  unfold get_request. rewrite Forall_forall in Hlt.
  rewrite (ObjectId_oid_str _ (Hlt d Hd)). cbn [bind].
  unfold find_one, find. now rewrite (find_by_id_unique _ _ Hnd Hd).
Qed.

Lemma listed_requests_can_be_fetched_witness :
  exists res,
    list_requests None two_requests_world = Ok res /\
    Forall (fun x => exists id, lookup "id" x = Some (VStr id)
                                /\ get_request id two_requests_world = Ok x)
           res.
Proof.
  eexists. split; [reflexivity|].
  apply Forall_forall. intros x Hx.
  eapply (listed_requests_can_be_fetched None two_requests_world);
    [ | | reflexivity | exact Hx].
  - repeat constructor; simpl; intuition discriminate.
  - repeat constructor.
Defined.

(** ** What the handlers keep true of the store *)

Lemma same_ids_grows (w w' : world) : same_ids w w' -> grows w w'.
Proof.
  intros [Hn Hi]. split; [rewrite Hn; lia|]. intros n. left. apply Hi.
Qed.

Lemma same_ids_then_grows (w w1 w' : world) :
  same_ids w w1 -> grows w1 w' -> grows w w'.
Proof.
  intros [Hn Hi] [Hle Hg]. split; [now rewrite <- Hn|].
  intros n. rewrite <- Hn, <- (Hi n). apply Hg.
Qed.

Lemma grows_then_same_ids (w w1 w' : world) :
  grows w w1 -> same_ids w1 w' -> grows w w'.
Proof.
  intros [Hle Hg] [Hn Hi]. split; [now rewrite Hn|].
  intros n. rewrite Hn, (Hi n). apply Hg.
Qed.

Lemma same_ids_now `{Runtime} (w : world) : same_ids w (snd (now w)).
Proof. now split. Qed.

Lemma same_ids_print (x : notification) (w : world) : same_ids w (print x w).
Proof. now split. Qed.

Lemma same_ids_refl (w : world) : same_ids w w.
Proof. now split. Qed.

Lemma insert_one_grows (m : string) (data : dict) (w : world) :
  grows w (snd (insert_one m data w)).
Proof.
  split; [simpl; lia|]. intros n. unfold ids.
  destruct (String.eqb_spec n m) as [->|Hnm].
  - right. rewrite collection_insert_same, map_app. now split.
  - left. now rewrite collection_insert_other.
Qed.

Lemma create_document_grows (m : string) (data : dict) (w : world) :
  grows w (snd (create_document m data w)).
Proof.
  unfold create_document.
  pose proof (insert_one_grows m data w) as Hg.
  now destruct (insert_one m data w).
Qed.

Lemma ids_update_first (filt upd : dict) (docs : list document) :
  map _id (snd (update_first filt upd docs)) = map _id docs.
Proof.
  induction docs as [|d docs IH]; cbn [update_first]; [reflexivity|].
  destruct (matches filt d); [reflexivity|].
  destruct (update_first filt upd docs) as [k r]. cbn [snd map] in *.
  now rewrite IH.
Qed.

Lemma same_ids_update_one (m : string) (filt upd : dict) (w : world) :
  same_ids w (snd (update_one m filt upd w)).
Proof.
  split; [apply next_oid_update_one|]. intros n. unfold ids.
  destruct (String.eqb_spec n m) as [->|Hnm].
  - unfold update_one.
    pose proof (ids_update_first filt upd (collection m w)) as Hi.
    destruct (update_first filt upd (collection m w)) as [k r]. cbn [snd] in *.
    destruct (k =? 0)%nat; [reflexivity|].
    unfold set_collection, collection at 1. cbn [db].
    now rewrite coll_lookup_update_same.
  - now rewrite collection_update_other.
Qed.

Lemma same_ids_trans (w w1 w' : world) :
  same_ids w w1 -> same_ids w1 w' -> same_ids w w'.
Proof.
  intros [Hn Hi] [Hn' Hi']. split; [congruence|].
  intros n. now rewrite Hi', Hi.
Qed.

Lemma create_request_grows `{Runtime} (payload : Request.t) (w : world) :
  grows w (snd (create_request payload w)).
Proof.
  unfold create_request.
  set (data := set "created_at" (VDate (fst (now w))) (Request.model_dump payload)).
  apply (same_ids_then_grows w (snd (now w))); [apply same_ids_now|].
  pose proof (create_document_grows "request" data (snd (now w))) as Hg.
  unfold data in *. simpl in *.
  destruct payload as [n e p sid msg st ca]. simpl in *.
  apply (grows_then_same_ids _ _ _ Hg). apply same_ids_print.
Qed.

Lemma onboarding_grows `{Runtime} (payload : OnboardingPayload.t) (w : world) :
  grows w (snd (onboarding payload w)).
Proof.
  unfold onboarding.
  match goal with
  | |- context [create_document "business" ?data w] =>
      pose proof (create_document_grows "business" data w) as Hg;
      destruct (create_document "business" data w) as [bid w1]
  end.
  exact Hg.
Qed.

Lemma assistant_grows `{Runtime} (msg : ChatMessage.t) (w : world) :
  grows w (snd (assistant msg w)).
Proof.
  unfold assistant.
  destruct (select_reply _ _) as [reply|e];
    [|apply same_ids_grows, same_ids_refl].
  destruct (ChatMessage.name msg) as [n|];
    [|apply same_ids_grows, same_ids_refl].
  destruct (ChatMessage.email msg) as [e|];
    [|apply same_ids_grows, same_ids_refl].
  destruct (ChatMessage.phone msg) as [p|];
    [|apply same_ids_grows, same_ids_refl].
  destruct (_ && _); [|apply same_ids_grows, same_ids_refl].
  match goal with
  | |- context [create_document "request" ?data w] =>
      pose proof (create_document_grows "request" data w) as Hg;
      destruct (create_document "request" data w) as [rid w1]
  end.
  exact Hg.
Qed.

Lemma update_status_grows `{Runtime} (req_id : string)
  (payload : StatusUpdate.t) (w : world) :
  grows w (snd (update_status req_id payload w)).
Proof.
  rewrite update_status_unfold. cbv zeta.
  destruct (negb (existsb _ statuses));
    [apply same_ids_grows, same_ids_refl|].
  destruct (ObjectId req_id) as [o|e];
    [|apply same_ids_grows, same_ids_refl].
  set (u := update_one "request" _ _ _).
  assert (Hu : same_ids w (snd u)).
  { apply (same_ids_trans w (snd (now w))); [apply same_ids_now|].
    apply same_ids_update_one. }
  destruct (fst u =? 0)%nat; [now apply same_ids_grows|].
  cbn [snd].
  apply (same_ids_then_grows w (snd u) _ Hu).
  apply (same_ids_then_grows _ (snd (now (snd u)))); [apply same_ids_now|].
  set (w4 := snd (insert_one "request_log" _ _)).
  assert (Hg : grows (snd (now (snd u))) w4) by apply insert_one_grows.
  destruct (String.eqb _ "Confirmé"); [|exact Hg].
  destruct (find_one "request" _ w4); [|exact Hg].
  apply (grows_then_same_ids _ _ _ Hg). apply same_ids_print.
Qed.

Lemma step_grows `{Runtime} (w w' : world) : step w w' -> grows w w'.
Proof.
  intros [payload w0|req_id payload w0|payload w0|msg w0].
  - apply create_request_grows.
  - apply update_status_grows.
  - apply onboarding_grows.
  - apply assistant_grows.
Qed.

Lemma grows_fresh (w w' : world) :
  grows w w' ->
  (forall n, Forall (fun o => (o < next_oid w)%N) (ids n w)) ->
  forall n, Forall (fun o => (o < next_oid w')%N) (ids n w').
Proof.
  intros [Hle Hg] Hf n.
  assert (Hold : Forall (fun o => (o < next_oid w')%N) (ids n w)).
  { eapply Forall_impl; [|apply Hf]. simpl. intros o Ho. lia. }
  destruct (Hg n) as [->|[-> Hn]]; [exact Hold|].
  apply Forall_app. split; [exact Hold|].
  constructor; [lia | constructor].
Qed.

Lemma grows_nodup (w w' : world) :
  grows w w' ->
  (forall n, Forall (fun o => (o < next_oid w)%N) (ids n w)) ->
  (forall n, NoDup (ids n w)) ->
  forall n, NoDup (ids n w').
Proof.
  intros [_ Hg] Hf Hnd n.
  destruct (Hg n) as [->|[-> _]]; [apply Hnd|].
  apply NoDup_app; [apply Hnd | repeat constructor; intros [] |].
  intros o Hin [<-|[]]. specialize (Hf n). rewrite Forall_forall in Hf.
  specialize (Hf _ Hin). lia.
Qed.

Lemma grows_incl (w w' : world) (n : string) :
  grows w w' -> incl (ids n w) (ids n w').
Proof.
  intros [_ Hg]. destruct (Hg n) as [->|[-> _]];
    [apply incl_refl | apply incl_appl, incl_refl].
Qed.

Lemma create_request_other_collections `{Runtime} (payload : Request.t)
  (w : world) (n : string) :
  n <> "request" -> collection n (snd (create_request payload w)) = collection n w.
Proof.
  intros Hn. unfold create_request, create_document. simpl.
  rewrite collection_print.
  apply (collection_insert_other n "request" _ (snd (now w)) Hn).
Qed.

Lemma onboarding_other_collections `{Runtime} (payload : OnboardingPayload.t)
  (w : world) (n : string) :
  n <> "business" -> collection n (snd (onboarding payload w)) = collection n w.
Proof.
  intros Hn. unfold onboarding, create_document.
  match goal with
  | |- context [insert_one "business" ?data w] =>
      pose proof (collection_insert_other n "business" data w Hn) as Hc;
      destruct (insert_one "business" data w) as [o w1]
  end.
  exact Hc.
Qed.

(** What the assistant does to the collections: nothing, or one more request,
    whose creation timestamp is [None]. *)
Lemma assistant_collections `{Runtime} (msg : ChatMessage.t) (w : world) :
  (forall n, n <> "request" ->
             collection n (snd (assistant msg w)) = collection n w) /\
  (collection "request" (snd (assistant msg w)) = collection "request" w \/
   exists data,
     lookup "created_at" data = Some VNone /\
     collection "request" (snd (assistant msg w))
     = (collection "request" w ++ [mkDoc (next_oid w) data])%list).
Proof.
  unfold assistant.
  destruct (select_reply _ _) as [reply|e]; [|now split; [|left]].
  destruct (ChatMessage.name msg) as [n|]; [|now split; [|left]].
  destruct (ChatMessage.email msg) as [e|]; [|now split; [|left]].
  destruct (ChatMessage.phone msg) as [p|]; [|now split; [|left]].
  destruct (_ && _); [|now split; [|left]].
  unfold create_document.
  set (data := Request.model_dump
                 (Request.new n e p None (Some (ChatMessage.message msg)))).
  pose proof (collection_insert_same "request" data w) as Hs.
  pose proof (fun k => collection_insert_other k "request" data w) as Ho.
  destruct (insert_one "request" data w) as [o w1]. cbn [snd] in *.
  split; [exact Ho|]. right. exists data. now split.
Qed.

Lemma update_first_unmatched (filt upd : dict) (docs : list document) :
  fst (update_first filt upd docs) = 0 ->
  snd (update_first filt upd docs) = docs.
Proof.
  induction docs as [|d docs IH]; cbn [update_first]; [reflexivity|].
  destruct (matches filt d); [discriminate|].
  destruct (update_first filt upd docs) as [k r]. cbn [fst snd] in *.
  intros Hk. now rewrite IH.
Qed.

Lemma collection_update_same (m : string) (filt upd : dict) (w : world) :
  collection m (snd (update_one m filt upd w))
  = snd (update_first filt upd (collection m w)).
Proof.
  unfold update_one.
  pose proof (update_first_unmatched filt upd (collection m w)) as Hu.
  destruct (update_first filt upd (collection m w)) as [k r]. cbn [fst snd] in *.
  destruct (Nat.eqb_spec k 0) as [Hk|Hk]; [now rewrite Hu|].
  unfold set_collection, collection at 1. cbn [db].
  apply coll_lookup_update_same.
Qed.

Lemma find_one_by_id_In (n : string) (o : oid) (w : world) (d : document) :
  find_one n [("_id", VOid o)] w = Some d ->
  In d (collection n w) /\ _id d = o.
Proof.
  unfold find_one, find.
  destruct (filter _ (collection n w)) as [|x l] eqn:Hf; [discriminate|].
  intros [= ->].
  assert (Hin : In d (filter (matches [("_id", VOid o)]) (collection n w)))
    by (rewrite Hf; now left).
  apply filter_In in Hin as [Hin Hm]. split; [exact Hin|].
  rewrite matches_id in Hm. now apply N.eqb_eq.
Qed.

(** What [update_status] does to the collections: nothing, or one update of
    the matched request together with one new history entry. *)
Lemma update_status_collections `{Runtime} (req_id : string)
  (payload : StatusUpdate.t) (w : world) :
  let st := StatusUpdate.status payload in
  let w' := snd (update_status req_id payload w) in
  (forall n, n <> "request" -> n <> "request_log" ->
             collection n w' = collection n w) /\
  ((collection "request" w' = collection "request" w /\
    collection "request_log" w' = collection "request_log" w) \/
   exists o t1 t2 before,
     In st statuses /\
     In before (collection "request" w) /\ _id before = o /\
     collection "request" w'
     = snd (update_first [("_id", VOid o)] (status_update st t1)
                         (collection "request" w)) /\
     collection "request_log" w'
     = (collection "request_log" w
        ++ [mkDoc (next_oid w) (log_entry o st t2)])%list).
Proof.
  cbv zeta. rewrite update_status_unfold. cbv zeta.
  set (st := StatusUpdate.status payload).
  destruct (existsb (String.eqb st) statuses) eqn:Hst; cbn [negb];
    [|now split; [|left]].
  destruct (ObjectId req_id) as [o|e]; [|now split; [|left]].
  set (upd := status_update st (clock (ticks w))).
  set (u := update_one "request" [("_id", VOid o)] upd (snd (now w))).
  pose proof (update_one_count "request" [("_id", VOid o)] upd (snd (now w)))
    as Hc.
  pose proof (collection_update_same "request" [("_id", VOid o)] upd
                (snd (now w))) as Hreq.
  pose proof (fun n Hn => collection_update_other n "request"
                            [("_id", VOid o)] upd (snd (now w)) Hn) as Hoth.
  pose proof (next_oid_update_one "request" [("_id", VOid o)] upd
                (snd (now w))) as Hnext.
  fold u in Hc, Hreq, Hoth, Hnext. rewrite find_one_now in Hc.
  change (collection "request" (snd (now w))) with (collection "request" w)
    in Hreq.
  change (next_oid (snd (now w))) with (next_oid w) in Hnext.
  assert (Hoth' : forall n, n <> "request" ->
                            collection n (snd u) = collection n w)
    by exact Hoth.
  clear Hoth.
  destruct (find_one "request" [("_id", VOid o)] w) as [before|] eqn:Hb;
    rewrite Hc; cbn [Nat.eqb snd].
  - destruct (find_one_by_id_In _ _ _ _ Hb) as [Hin Hid].
    set (entry := log_entry o st (clock (ticks (snd u)))).
    set (w4 := snd (insert_one "request_log" entry (snd (now (snd u))))).
    assert (Hsame : forall n, collection n
                      (if String.eqb st "Confirmé"
                       then match find_one "request" [("_id", VOid o)] w4 with
                            | Some doc =>
                                print (Confirmation (doc_get doc "email" VNone)) w4
                            | None => w4
                            end
                       else w4) = collection n w4).
    { intros n. destruct (String.eqb st "Confirmé"); [|reflexivity].
      now destruct (find_one "request" [("_id", VOid o)] w4). }
    split.
    + intros n Hn Hl. rewrite Hsame. unfold w4.
      rewrite collection_insert_other by exact Hl. now apply Hoth'.
    + right. exists o, (clock (ticks w)), (clock (ticks (snd u))), before.
      split.
      { apply existsb_exists in Hst as (x & Hx & Heq).
        apply String.eqb_eq in Heq. now subst x. }
      split; [exact Hin|]. split; [exact Hid|]. split.
      * rewrite Hsame. unfold w4.
        rewrite collection_insert_other by discriminate. exact Hreq.
      * rewrite Hsame. unfold w4. rewrite collection_insert_same.
        change (collection "request_log" (snd (now (snd u))))
          with (collection "request_log" (snd u)).
        change (next_oid (snd (now (snd u)))) with (next_oid (snd u)).
        rewrite Hnext. now rewrite Hoth' by discriminate.
  - split.
    + intros n Hn _. now apply Hoth'.
    + left. split; [|now apply Hoth'].
      rewrite Hreq. apply update_first_unmatched.
      rewrite update_first_count.
      unfold find_one, find in Hb.
      now destruct (filter _ (collection "request" w)).
Qed.

Lemma Forall_update_first (P : document -> Prop) (filt upd : dict)
  (docs : list document) :
  (forall d, P d -> P (apply_set upd d)) ->
  Forall P docs -> Forall P (snd (update_first filt upd docs)).
Proof.
  intros Hp. induction 1 as [|d docs Hd Hdocs IH]; cbn [update_first];
    [constructor|].
  destruct (matches filt d); cbn [snd]; [constructor; auto|].
  destruct (update_first filt upd docs) as [k r]. cbn [snd] in *.
  now constructor.
Qed.

Lemma timestamp_known_apply_status_update (st : string) (t : datetime)
  (d : document) :
  timestamp_known d -> timestamp_known (apply_set (status_update st t) d).
Proof.
  unfold timestamp_known. now rewrite lookup_apply_status_update.
Qed.

Lemma logged_incl (rs rs' : list oid) (d : document) :
  incl rs rs' -> logged rs d -> logged rs' d.
Proof.
  intros Hi (o & st & t & Hf & Hs & Ho). exists o, st, t. auto.
Qed.

(** Every call of a writing handler keeps the store well formed. *)
Lemma step_store_ok `{Runtime} (w w' : world) :
  store_ok w -> step w w' -> store_ok w'.
Proof.
  intros (Hfresh & Hnodup & Hbiz & Hts & Hlog) Hstep.
  pose proof (step_grows w w' Hstep) as Hg.
  split; [now apply (grows_fresh w w' Hg)|].
  split; [now apply (grows_nodup w w' Hg)|].
  assert (Hlog' : Forall (logged (ids "request" w')) (collection "request_log" w)).
  { eapply Forall_impl; [|exact Hlog].
    intros d. apply logged_incl. now apply grows_incl. }
  clear Hfresh Hnodup Hlog.
  destruct Hstep as [payload w|req_id payload w|payload w|msg w].
  - destruct (create_request_stores_payload payload w) as [_ Hc].
    rewrite (create_request_other_collections _ _ "business"),
      (create_request_other_collections _ _ "request_log") by discriminate.
    split; [exact Hbiz|]. split; [|exact Hlog'].
    rewrite Hc. apply Forall_app. split; [exact Hts|].
    constructor; [|constructor]. unfold timestamp_known. cbn [fields].
    now destruct payload.
  - destruct (update_status_collections req_id payload w) as [Hoth Hcase].
    cbv zeta in *. rewrite Hoth by discriminate.
    split; [exact Hbiz|].
    destruct Hcase as [[-> ->]|(o & t1 & t2 & before & Hst & Hin & Hid & Hr & Hl)].
    + now split.
    + split.
      * rewrite Hr. apply Forall_update_first; [|exact Hts].
        intros d. apply timestamp_known_apply_status_update.
      * rewrite Hl. apply Forall_app. split; [exact Hlog'|].
        constructor; [|constructor].
        exists o, (StatusUpdate.status payload), t2.
        split; [reflexivity|]. split; [exact Hst|].
        apply (grows_incl w _ "request" Hg). unfold ids.
        rewrite <- Hid. now apply in_map.
  - rewrite (onboarding_other_collections _ _ "request"),
      (onboarding_other_collections _ _ "request_log") by discriminate.
    split; [now apply onboarding_business_ok|]. now split.
  - destruct (assistant_collections msg w) as [Hoth Hcase].
    rewrite (Hoth "business"), (Hoth "request_log") by discriminate.
    split; [exact Hbiz|]. split; [|exact Hlog'].
    destruct Hcase as [->|(data & Hnone & ->)]; [exact Hts|].
    apply Forall_app. split; [exact Hts|].
    constructor; [|constructor]. unfold timestamp_known. cbn [fields].
    now rewrite Hnone.
Qed.

Lemma empty_store_ok : store_ok empty_world.
Proof. repeat split; intros; constructor. Qed.

Lemma reachable_store_ok `{Runtime} (w : world) : reachable w -> store_ok w.
Proof.
  induction 1 as [|w w' _ IH Hstep]; [apply empty_store_ok|].
  now apply (step_store_ok w w').
Qed.

(** X21: in every store built through the handlers, the identifiers of each
    collection are pairwise distinct and were all issued before the next
    identifier that the store will assign. *)
Theorem reachable_ids_are_distinct `{Runtime} (w : world) (n : string) :
  reachable w ->
  NoDup (ids n w) /\ Forall (fun o => (o < next_oid w)%N) (ids n w).
Proof.
  intros Hr. destruct (reachable_store_ok w Hr) as (Hf & Hn & _).
  split; [apply Hn | apply Hf].
Qed.

Lemma reachable_ids_are_distinct_witness :
  NoDup (ids "request" two_requests_world).
Proof.
  apply (@reachable_ids_are_distinct demo_runtime two_requests_world "request").
  apply (@reachable_step demo_runtime one_request_world).
  - apply (@reachable_step demo_runtime empty_world).
    + apply reachable_empty.
    + apply (@step_create_request demo_runtime tom_request empty_world).
  - apply (@step_create_request demo_runtime
             (Request.new "Léa" "lea@x.com" "0611111111" None None)
             one_request_world).
Defined.






(** ** What no handler undoes *)








(** ** When listing fails, on stores built through the handlers *)



